(** * A shallow embedding of the task router (app.py, tasksA.py, tasksB.py)

    The development follows the three source files:
    - [tasksB.py]: the path guard [validate_data_path] and the guarded
      handlers ([download_url_content], [execute_sql_query],
      [process_image], [convert_markdown_to_html]) plus
      [scrape_web_content];
    - [tasksA.py]: [count_weekday_dates], [sort_contacts],
      [extract_email_sender];
    - [app.py]: the registry [function_definitions_llm] and the dispatcher
      [run_task] with its chain of [if name == task_code] tests.

    Python values that cross the dispatcher are JSON values; handlers run in
    a state-and-exception monad over a file system (a finite map from path
    to text).  Library calls (json, requests, sqlite3/duckdb, PIL, markdown,
    dateutil, the completion service) are fields of one record of external
    functions, so every theorem holds for all of their behaviours. *)

From Stdlib Require Import String Ascii List ZArith Lia Bool DecimalString.
From Stdlib Require Import Sorting.Permutation Sorting.Sorted.
From stdpp Require Import base gmap strings list.

Import ListNotations.
Open Scope string_scope.
Open Scope Z_scope.

(** ** Python strings

    A [str] is modelled as a [string]; its characters stand for code
    points. *)

Module PyStr.

(** [s.startswith(pre)] *)
Definition startswith (s pre : string) : bool := String.prefix pre s.

(** [s.endswith(suf)] *)
Definition endswith (s suf : string) : bool :=
  let n := String.length s in
  let k := String.length suf in
  (k <=? n)%nat && String.eqb (String.substring (n - k) k s) suf.

(** [s[:n]] *)
Fixpoint take (n : nat) (s : string) : string :=
  match n, s with
  | O, _ => EmptyString
  | S _, EmptyString => EmptyString
  | S n', String c s' => String c (take n' s')
  end.

(** [s.split(sep)] for a one-character separator: never returns the
    empty list. *)
Fixpoint split (sep : ascii) (s : string) : list string :=
  match s with
  | EmptyString => [EmptyString]
  | String c s' =>
      if Ascii.eqb c sep then EmptyString :: split sep s'
      else match split sep s' with
           | [] => [String c EmptyString]
           | w :: ws => String c w :: ws
           end
  end.

(** [s.replace(old, "")] for a one-character [old]. *)
Fixpoint remove_char (old : ascii) (s : string) : string :=
  match s with
  | EmptyString => EmptyString
  | String c s' =>
      if Ascii.eqb c old then remove_char old s'
      else String c (remove_char old s')
  end.

(** The characters [str.strip()] removes, among the code points below 256:
    space, tab, line feed, vertical tab, form feed, carriage return, the
    four separators 28..31, next line (133) and no-break space (160). *)
Definition is_space (c : ascii) : bool :=
  let n := nat_of_ascii c in
  (n =? 32)%nat || ((9 <=? n)%nat && (n <=? 13)%nat)
  || ((28 <=? n)%nat && (n <=? 31)%nat) || (n =? 133)%nat || (n =? 160)%nat.

Fixpoint lstrip (s : string) : string :=
  match s with
  | EmptyString => EmptyString
  | String c s' => if is_space c then lstrip s' else s
  end.

Fixpoint rstrip (s : string) : string :=
  match s with
  | EmptyString => EmptyString
  | String c s' =>
      match rstrip s' with
      | EmptyString => if is_space c then EmptyString else String c EmptyString
      | r => String c r
      end
  end.

(** [s.strip()] *)
Definition strip (s : string) : string := rstrip (lstrip s).

(** [sep.join(ws)] *)
Fixpoint join (sep : string) (ws : list string) : string :=
  match ws with
  | [] => EmptyString
  | [w] => w
  | w :: ws' => w ++ sep ++ join sep ws'
  end.

(** [repr(s)] for text without quotes, backslashes or control
    characters: the text between single quotes. *)
Definition repr (s : string) : string := "'" ++ s ++ "'".

End PyStr.

(** ** tasksB.py: the path guard *)

(** [validate_data_path(filepath)]: a bare [startswith('/data')]. *)
Definition validate_data_path (filepath : string) : bool :=
  if PyStr.startswith filepath "/data" then true else false.

(** *** The spec's reading of confinement

    The specification speaks of a path that, once normalised, is the root
    [/data] itself or lies below it.  [spec_normalize] is the lexical
    normalisation of an absolute path (empty and [.] segments dropped,
    [..] resolved against the preceding segment); [spec_is_confined]
    follows the spec's words and is only ever compared with the source's
    [validate_data_path]. *)

Fixpoint spec_resolve (segs acc : list string) : list string :=
  match segs with
  | [] => rev acc
  | seg :: rest =>
      if String.eqb seg "" || String.eqb seg "." then spec_resolve rest acc
      else if String.eqb seg ".." then spec_resolve rest (tail acc)
      else spec_resolve rest (seg :: acc)
  end.

Definition spec_normalize (p : string) : string :=
  if PyStr.startswith p "/"
  then "/" ++ PyStr.join "/" (spec_resolve (PyStr.split "/" p) [])
  else p.

Definition spec_is_confined (p : string) : bool :=
  let n := spec_normalize p in
  String.eqb n "/data" || PyStr.startswith n "/data/".

(** ** Exceptions and results

    An exception is its class name and the text [str(e)] gives.  Only
    subclasses of [Exception] are modelled. *)

Record exn := Exn { exn_class : string; exn_str : string }.

Definition result (A : Type) : Type := (exn + A)%type.

Definition TypeError (msg : string) : exn := Exn "TypeError" msg.
Definition ValueError (msg : string) : exn := Exn "ValueError" msg.
Definition AttributeError (msg : string) : exn := Exn "AttributeError" msg.
Definition KeyError (key : string) : exn := Exn "KeyError" (PyStr.repr key).
Definition OSError (msg : string) : exn := Exn "OSError" msg.
Definition FileNotFoundError (path : string) : exn :=
  Exn "FileNotFoundError"
      ("[Errno 2] No such file or directory: " ++ PyStr.repr path).

(** ** JSON values

    What [json.loads] returns: [None], [bool], [int], [str], [list] and
    [dict] (in insertion order, keys distinct).  JSON numbers with a
    fraction or an exponent (Python floats) are outside the model. *)

#[local] Set Warnings "-register-all".

Inductive json : Type :=
| JNull
| JBool (b : bool)
| JInt (n : Z)
| JStr (s : string)
| JArr (items : list json)
| JObj (members : list (string * json)).

(** [type(v).__name__] *)
Definition type_name (v : json) : string :=
  match v with
  | JNull => "NoneType"
  | JBool _ => "bool"
  | JInt _ => "int"
  | JStr _ => "str"
  | JArr _ => "list"
  | JObj _ => "dict"
  end.

(** [d.get(k)] on an insertion-ordered dictionary. *)
Fixpoint dict_get {A : Type} (k : string) (d : list (string * A)) : option A :=
  match d with
  | [] => None
  | (k', v) :: d' => if String.eqb k k' then Some v else dict_get k d'
  end.

(** [bool(v)] *)
Definition truthy (v : json) : bool :=
  match v with
  | JNull => false
  | JBool b => b
  | JInt n => negb (n =? 0)
  | JStr s => negb (String.eqb s "")
  | JArr l => match l with [] => false | _ => true end
  | JObj m => match m with [] => false | _ => true end
  end.

(** The integer a [bool] or [int] stands for ([True == 1]). *)
Definition as_number (v : json) : option Z :=
  match v with
  | JBool b => Some (if b then 1 else 0)
  | JInt n => Some n
  | _ => None
  end.

(** [a == b]; never raises on JSON values.  Dictionaries are equal when
    they have the same keys with equal values, in any order. *)
Fixpoint py_eq (a b : json) {struct a} : bool :=
  match a, b with
  | JNull, JNull => true
  | JStr s, JStr t => String.eqb s t
  | JArr l, JArr l' =>
      (fix all2 (l : list json) (l' : list json) {struct l} : bool :=
         match l, l' with
         | [], [] => true
         | x :: r, y :: r' => py_eq x y && all2 r r'
         | _, _ => false
         end) l l'
  | JObj m, JObj m' =>
      (List.length m =? List.length m')%nat &&
      (fix sub (m : list (string * json)) {struct m} : bool :=
         match m with
         | [] => true
         | (k, v) :: r =>
             match dict_get k m' with
             | Some v' => py_eq v v' && sub r
             | None => false
             end
         end) m
  | _, _ =>
      match as_number a, as_number b with
      | Some x, Some y => x =? y
      | _, _ => false
      end
  end.

Definition not_supported (op : string) (a b : json) : exn :=
  TypeError (PyStr.repr op ++ " not supported between instances of "
             ++ PyStr.repr (type_name a) ++ " and " ++ PyStr.repr (type_name b)).

(** [a < b]: numbers by value, strings by code point, lists
    lexicographically (first unequal pair decides, else the shorter list is
    smaller); anything else raises [TypeError]. *)
Fixpoint py_lt (a b : json) {struct a} : result bool :=
  match a, b with
  | JStr s, JStr t => inr (String.ltb s t)
  | JArr l, JArr l' =>
      (fix lex (l : list json) (l' : list json) {struct l} : result bool :=
         match l, l' with
         | [], [] => inr false
         | [], _ :: _ => inr true
         | _ :: _, [] => inr false
         | x :: r, y :: r' => if py_eq x y then lex r r' else py_lt x y
         end) l l'
  | _, _ =>
      match as_number a, as_number b with
      | Some x, Some y => inr (x <? y)
      | _, _ => inl (not_supported "<" a b)
      end
  end.

(** ** The world: a file system and a ghost log of handler calls

    [files] maps a path string, exactly as the program passes it to [open],
    to the text of the file (what a text-mode [read()] returns).  Two
    spellings of one file ([/data/../etc/x] and [/etc/x], a link and its
    target) are two keys: the model says which path strings are opened, not
    which inode they lead to.  Opening a missing file for reading raises
    [FileNotFoundError]; every path string can be created or overwritten,
    [write] does not fail, and the text is kept as written (no newline
    translation, no encoding step).
    [calls] is ghost state: the names of the handlers that [run_task] itself
    called, latest first.  Only the dispatcher writes it: a call one handler
    makes to another (a guarded handler calling [validate_data_path]) is not
    logged, and no handler reads it. *)

Record World := mkWorld { files : gmap string string; calls : list string }.

Definition M (A : Type) : Type := World -> result A * World.

Definition ret {A : Type} (a : A) : M A := fun w => (inr a, w).
Definition raise {A : Type} (e : exn) : M A := fun w => (inl e, w).
Definition bind {A B : Type} (c : M A) (k : A -> M B) : M B :=
  fun w => match c w with
           | (inl e, w') => (inl e, w')
           | (inr a, w') => k a w'
           end.
Definition lift {A : Type} (r : result A) : M A := fun w => (r, w).

Notation "'let*' x ':=' c 'in' k" := (bind c (fun x => k))
  (at level 10, x name, c at level 100, k at level 200).
Notation "'do' c1 'then' c2" := (bind c1 (fun _ => c2))
  (at level 10, c1 at level 100, c2 at level 200).

Definition set_files (fs : gmap string string) (w : World) : World :=
  mkWorld fs (calls w).

Definition log_call (name : string) : M unit :=
  fun w => (inr tt, mkWorld (files w) (name :: calls w)).

(** The path argument of [open]: a [str] names a file.  An [int] would name
    a descriptor; the descriptors of the server process are outside the
    model, which treats every one as closed. *)
Definition open_path (v : json) : result string :=
  match v with
  | JStr s => inr s
  | JBool _ | JInt _ => inl (OSError "[Errno 9] Bad file descriptor")
  | _ => inl (TypeError ("expected str, bytes or os.PathLike object, not "
                         ++ type_name v))
  end.

(** [with open(path, 'r') as f: f.read()] *)
Definition read_file (path : json) : M string :=
  let* p := lift (open_path path) in
  fun w => match files w !! p with
           | Some text => (inr text, w)
           | None => (inl (FileNotFoundError p), w)
           end.

(** [with open(path, 'w') as f: f.write(text)] *)
Definition write_file (path : json) (text : string) : M unit :=
  let* p := lift (open_path path) in
  fun w => (inr tt, set_files (<[p := text]> (files w)) w).

(** Iterating over a text file, and [readlines()]: the lines with their
    line feed, the last one possibly without. *)
Fixpoint file_lines (text : string) : list string :=
  match text with
  | EmptyString => []
  | String c rest =>
      if Ascii.eqb c "010" then String c EmptyString :: file_lines rest
      else match file_lines rest with
           | [] => [String c EmptyString]
           | l :: ls => String c l :: ls
           end
  end.

Definition rbind {A B : Type} (r : result A) (k : A -> result B) : result B :=
  match r with
  | inl e => inl e
  | inr a => k a
  end.

Notation "'let+' x ':=' r 'in' k" := (rbind r (fun x => k))
  (at level 10, x name, r at level 100, k at level 200).

(** ** Python built-ins used by the handlers *)

(** [str(n)] for an [int] *)
Definition str_of_int (n : Z) : string :=
  DecimalString.NilZero.string_of_int (Z.to_int n).

Definition digit_of (c : ascii) : option Z :=
  let n := nat_of_ascii c in
  if (48 <=? n)%nat && (n <=? 57)%nat then Some (Z.of_nat (n - 48)) else None.

(** Decimal digits, with single underscores allowed between digits. *)
Fixpoint int_digits (s : string) (acc : Z) (after_digit : bool) : option Z :=
  match s with
  | EmptyString => if after_digit then Some acc else None
  | String c s' =>
      match digit_of c with
      | Some d => int_digits s' (10 * acc + d) true
      | None =>
          if Ascii.eqb c "_" && after_digit then int_digits s' acc false
          else None
      end
  end.

(** The white space [int] skips at both ends of a [str]: the six ASCII
    characters of C's [isspace], and the non-ASCII spaces, which the
    conversion first turns into blanks.  The separators 28 to 31, which
    [str.strip] removes, are not among them. *)
Definition int_space (c : ascii) : bool :=
  let n := nat_of_ascii c in
  (n =? 32)%nat || ((9 <=? n)%nat && (n <=? 13)%nat)
  || (n =? 133)%nat || (n =? 160)%nat.

Fixpoint int_lstrip (s : string) : string :=
  match s with
  | String c s' => if int_space c then int_lstrip s' else s
  | EmptyString => EmptyString
  end.

Fixpoint int_rstrip (s : string) : string :=
  match s with
  | EmptyString => EmptyString
  | String c s' =>
      match int_rstrip s' with
      | EmptyString => if int_space c then EmptyString
                       else String c EmptyString
      | t => String c t
      end
  end.

(** The leading run of digits and underscores, and what follows it. *)
Fixpoint digit_run (s : string) : string * string :=
  match s with
  | EmptyString => (EmptyString, EmptyString)
  | String c s' =>
      match digit_of c with
      | None => if Ascii.eqb c "_"
                then let (run, rest) := digit_run s' in (String c run, rest)
                else (EmptyString, s)
      | Some _ => let (run, rest) := digit_run s' in (String c run, rest)
      end
  end.

Fixpoint count_digits (s : string) : nat :=
  match s with
  | EmptyString => 0
  | String c s' =>
      match digit_of c with
      | Some _ => S (count_digits s')
      | None => count_digits s'
      end
  end.

(** [sys.get_int_max_str_digits()], at its default *)
Definition int_max_str_digits : nat := 4300.

Inductive int_parse :=
  | IntValue (n : Z)
  | IntInvalid
  | IntTooLong (digits : nat).

(** The unsigned part: the run of digits is scanned first; a misplaced
    underscore is an invalid literal, then a run of more than
    [int_max_str_digits] digits is refused, then anything left after the
    run is an invalid literal.  Each of the three is a [ValueError]. *)
Definition int_of_body (body : string) : int_parse :=
  let (run, rest) := digit_run body in
  match int_digits run 0 false with
  | None => IntInvalid
  | Some n =>
      if (int_max_str_digits <? count_digits run)%nat
      then IntTooLong (count_digits run)
      else match rest with
           | EmptyString => IntValue n
           | _ => IntInvalid
           end
  end.

Definition int_of_str (s : string) : int_parse :=
  match int_rstrip (int_lstrip s) with
  | String "-" body =>
      match int_of_body body with
      | IntValue n => IntValue (- n)
      | other => other
      end
  | String "+" body => int_of_body body
  | body => int_of_body body
  end.

(** [int(v)] *)
Definition py_int (v : json) : result Z :=
  match v with
  | JInt n => inr n
  | JBool b => inr (if b then 1 else 0)
  | JStr s =>
      match int_of_str s with
      | IntValue n => inr n
      | IntInvalid => inl (ValueError ("invalid literal for int() with base 10: "
                                       ++ PyStr.repr s))
      | IntTooLong digits =>
          inl (ValueError
                 ("Exceeds the limit (4300 digits) for integer string conversion: value has "
                  ++ str_of_int (Z.of_nat digits)
                  ++ " digits; use sys.set_int_max_str_digits() to increase the limit"))
      end
  | _ => inl (TypeError
                ("int() argument must be a string, a bytes-like object or a real number, not "
                 ++ PyStr.repr (type_name v)))
  end.

(** [list(v)]: what [sorted] iterates over. *)
Fixpoint chars (s : string) : list json :=
  match s with
  | EmptyString => []
  | String c s' => JStr (String c EmptyString) :: chars s'
  end.

Definition py_iter (v : json) : result (list json) :=
  match v with
  | JArr l => inr l
  | JObj m => inr (map (fun kv => JStr (fst kv)) m)
  | JStr s => inr (chars s)
  | _ => inl (TypeError (PyStr.repr (type_name v) ++ " object is not iterable"))
  end.

(** [x[key]] for a [str] key *)
Definition subscript (x : json) (key : string) : result json :=
  match x with
  | JObj m => match dict_get key m with
              | Some v => inr v
              | None => inl (KeyError key)
              end
  | JStr _ => inl (TypeError "string indices must be integers, not 'str'")
  | JArr _ => inl (TypeError "list indices must be integers or slices, not str")
  | _ => inl (TypeError (PyStr.repr (type_name x) ++ " object is not subscriptable"))
  end.

(** The method lookups [v.startswith] and [v.endswith] on a value that is
    not a [str]. *)
Definition no_attribute (v : json) (attr : string) : exn :=
  AttributeError (PyStr.repr (type_name v) ++ " object has no attribute "
                  ++ PyStr.repr attr).

(** *** [sorted(items, key=...)]

    The keys are computed first, in order; the sort then uses [<] on keys
    only and is stable.  The model inserts each element after the elements
    it is not smaller than, which is what CPython's insertion step does;
    whenever no comparison raises, the outcome is the one stable sorted
    arrangement, whatever the merge strategy.  When a comparison raises,
    the model reports the first failure on its own comparison path. *)

Section Sorted.
Context {K : Type} (lt : K -> K -> result bool).

Fixpoint insert_keyed (x : K * json) (l : list (K * json))
  : result (list (K * json)) :=
  match l with
  | [] => inr [x]
  | y :: r =>
      let+ b := lt (fst x) (fst y) in
      if b then inr (x :: y :: r)
      else let+ r' := insert_keyed x r in inr (y :: r')
  end.

Fixpoint sort_keyed (l acc : list (K * json)) : result (list (K * json)) :=
  match l with
  | [] => inr acc
  | x :: r => let+ acc' := insert_keyed x acc in sort_keyed r acc'
  end.

Fixpoint decorate (key : json -> result K) (l : list json)
  : result (list (K * json)) :=
  match l with
  | [] => inr []
  | x :: r =>
      let+ k := key x in
      let+ r' := decorate key r in
      inr ((k, x) :: r')
  end.

Definition py_sorted (key : json -> result K) (l : list json)
  : result (list json) :=
  let+ d := decorate key l in
  let+ s := sort_keyed d [] in
  inr (map snd s).

End Sorted.

(** [(a1, a2) < (b1, b2)] on 2-tuples: the first position whose items are
    not [==] decides. *)
Definition tuple_lt (a b : json * json) : result bool :=
  if py_eq (fst a) (fst b)
  then if py_eq (snd a) (snd b) then inr false else py_lt (snd a) (snd b)
  else py_lt (fst a) (fst b).

(** What a handler hands back ([run_task] drops it): [None], a [bool],
    the rows of a query (as [str] shows them) or a text. *)
Inductive pyret : Type :=
| RetNone
| RetBool (b : bool)
| RetRows (shown : string)
| RetText (s : string).

(** ** Library functions

    The behaviour of the libraries the program calls.  [json_loads] is
    [json.loads]/[json.load]; [json_dump4] the text [json.dump(v, f,
    indent=4)] writes; [get_completions] the name and the argument text of
    the first tool call of the completion service, or the exception the
    request raised; [requests_get] the [.text] of the response; the two
    database engines return [str(cursor.fetchall())] and may touch files;
    [image_convert] is open, optional resize and encode for the output
    path.  [parse_weekday] is [parse(date).weekday()] as it evaluates while
    one request runs: dateutil fills the fields a text omits from the
    current date, so the function belongs to the day of the request, and
    two requests on different days are two values of this record.
    [other_body] stands for the bodies of the handlers built on
    subprocesses, directory walks and remote models: [generate_data],
    [format_markdown], [get_recent_logs], [create_docs_index],
    [process_credit_card], [find_similar_comments] and
    [calculate_ticket_sales].
    [import_pil] is the statement [from PIL import Image] that opens
    [process_image]: Pillow is not among the dependencies app.py declares,
    so the import is a step that can raise.  The imports of the modules
    that the dependency block does declare ([requests], [markdown],
    [duckdb]) and of the standard library are taken to succeed. *)

Record Externals := mkExternals {
  get_completions : string -> result (string * string);
  json_loads : string -> result json;
  json_dump4 : json -> string;
  requests_get : json -> result string;
  sqlite_run : string -> json -> gmap string string
               -> result string * gmap string string;
  duckdb_run : string -> json -> gmap string string
               -> result string * gmap string string;
  image_convert : string -> option json -> string -> result string;
  markdown_render : string -> result string;
  parse_weekday : string -> result Z;
  import_pil : result unit;
  other_body : string -> list json -> gmap string string
               -> result pyret * gmap string string
}.


(** ** Keyword binding: a call with [** json.loads(arguments)]

    A parameter is its name and its default, if the [def] gives one. *)

Definition param : Type := (string * option json)%type.

Definition has_param (params : list param) (k : string) : bool :=
  existsb (fun p => String.eqb (fst p) k) params.

(** The first keyword the function does not declare. *)
Fixpoint unexpected_keyword (params : list param) (kwargs : list (string * json))
  : option string :=
  match kwargs with
  | [] => None
  | (k, _) :: rest =>
      if has_param params k then unexpected_keyword params rest else Some k
  end.

(** The parameters without default that [kwargs] does not supply. *)
Fixpoint missing_params (params : list param) (kwargs : list (string * json))
  : list string :=
  match params with
  | [] => []
  | (name, default) :: rest =>
      match default, dict_get name kwargs with
      | None, None => name :: missing_params rest kwargs
      | _, _ => missing_params rest kwargs
      end
  end.

(** ['a'], ['a' and 'b'], ['a', 'b', and 'c'] *)
Fixpoint oxford_tail (a : string) (rest : list string) : string :=
  match rest with
  | [] => "and " ++ PyStr.repr a
  | b :: rest' => PyStr.repr a ++ ", " ++ oxford_tail b rest'
  end.

Definition oxford (names : list string) : string :=
  match names with
  | [] => EmptyString
  | [a] => PyStr.repr a
  | [a; b] => PyStr.repr a ++ " and " ++ PyStr.repr b
  | a :: rest => oxford_tail a rest
  end.

Definition missing_message (fname : string) (names : list string) : string :=
  fname ++ "() missing " ++ str_of_int (Z.of_nat (List.length names))
  ++ " required positional argument"
  ++ (match names with [_] => "" | _ => "s" end) ++ ": " ++ oxford names.

Definition bound_value (kwargs : list (string * json)) (p : param) : json :=
  match dict_get (fst p) kwargs with
  | Some v => v
  | None => match snd p with Some d => d | None => JNull end
  end.

Definition bind_kwargs (fname : string) (params : list param)
           (kwargs : list (string * json)) : result (list json) :=
  match unexpected_keyword params kwargs with
  | Some k => inl (TypeError (fname ++ "() got an unexpected keyword argument "
                              ++ PyStr.repr k))
  | None =>
      match missing_params params kwargs with
      | [] => inr (map (bound_value kwargs) params)
      | names => inl (TypeError (missing_message fname names))
      end
  end.

(** The file that defines a handler: the six functions of tasksB.py, and
    tasksA.py for the others. *)
Definition in_tasksB (name : string) : bool :=
  existsb (String.eqb name)
    ["validate_data_path"; "download_url_content"; "execute_sql_query";
     "scrape_web_content"; "process_image"; "convert_markdown_to_html"].

(** The name an error about the call itself shows: module and function. *)
Definition qualified_name (name : string) : string :=
  (if in_tasksB name then "tasksB." else "tasksA.") ++ name.

(** The operand of [**] must be a mapping; [fname] is the qualified name. *)
Definition as_mapping (fname : string) (v : json) : result (list (string * json)) :=
  match v with
  | JObj m => inr m
  | _ => inl (TypeError (fname ++ "() argument after ** must be a mapping, not "
                         ++ type_name v))
  end.

(** The [i]-th bound argument. *)
Definition arg (i : nat) (args : list json) : json := nth i args JNull.

(** ** The handlers *)

Section Handlers.
Context (E : Externals).

(** [validate_data_path(filepath)] on a value of any type. *)
Definition validate_data_path_dyn (filepath : json) : result bool :=
  match filepath with
  | JStr s => inr (validate_data_path s)
  | _ => inl (no_attribute filepath "startswith")
  end.

(** *** tasksB.py *)

Definition download_url_content (url save_path : json) : M pyret :=
  let* ok := lift (validate_data_path_dyn save_path) in
  if negb ok then ret RetNone
  else
    let* text := lift (requests_get E url) in
    do write_file save_path text then
    ret RetNone.

(** [sqlite3.connect(db_path)] when the name ends in [.db], else
    [duckdb.connect(db_path)]; then [execute], [fetchall], [close]. *)
Definition run_query (db_path query : json) : M string :=
  match db_path with
  | JStr p =>
      fun w =>
        let engine := if PyStr.endswith p ".db" then sqlite_run E else duckdb_run E in
        let '(r, fs) := engine p query (files w) in
        (r, set_files fs w)
  | _ => raise (no_attribute db_path "endswith")
  end.

Definition execute_sql_query (db_path query output_filename : json) : M pyret :=
  let* ok := lift (validate_data_path_dyn db_path) in
  if negb ok then ret RetNone
  else
    let* rows := run_query db_path query in
    do write_file output_filename rows then
    ret (RetRows rows).

Definition scrape_web_content (url output_filename : json) : M pyret :=
  let* text := lift (requests_get E url) in
  do write_file output_filename text then
  ret RetNone.

(** The import comes first, before either guard. *)
Definition process_image (image_path output_path resize : json) : M pyret :=
  do lift (import_pil E) then
  let* ok := lift (validate_data_path_dyn image_path) in
  if negb ok then ret RetNone
  else
    let* ok' := lift (validate_data_path_dyn output_path) in
    if negb ok' then ret RetNone
    else
      let* img := read_file image_path in
      let* target := lift (open_path output_path) in
      let* out := lift (image_convert E img
                          (if truthy resize then Some resize else None) target) in
      do write_file output_path out then
      ret RetNone.

Definition convert_markdown_to_html (md_path output_path : json) : M pyret :=
  let* ok := lift (validate_data_path_dyn md_path) in
  if negb ok then ret RetNone
  else
    let* ok' := lift (validate_data_path_dyn output_path) in
    if negb ok' then ret RetNone
    else
      let* text := read_file md_path in
      let* html := lift (markdown_render E text) in
      do write_file output_path html then
      ret RetNone.

(** *** tasksA.py *)

(** [sum(1 for date in file if parse(date).weekday() == int(weekday)-1)] *)
Fixpoint count_matching (lines : list string) (weekday : json) : result Z :=
  match lines with
  | [] => inr 0
  | date :: rest =>
      let+ wd := parse_weekday E date in
      let+ k := py_int weekday in
      let+ n := count_matching rest weekday in
      inr ((if wd =? k - 1 then 1 else 0) + n)
  end.

Definition count_weekday_dates (filename targetfile weekday : json) : M pyret :=
  let* text := read_file filename in
  let* weekday_count := lift (count_matching (file_lines text) weekday) in
  do write_file targetfile (str_of_int weekday_count) then
  ret RetNone.

(** [lambda x: (x['last_name'], x['first_name'])] *)
Definition contact_key (x : json) : result (json * json) :=
  let+ last_name := subscript x "last_name" in
  let+ first_name := subscript x "first_name" in
  inr (last_name, first_name).

Definition sort_contacts (filename targetfile : json) : M pyret :=
  let* text := read_file filename in
  let* contacts := lift (json_loads E text) in
  let* items := lift (py_iter contacts) in
  let* sorted_contacts := lift (py_sorted tuple_lt contact_key items) in
  do write_file targetfile (json_dump4 E (JArr sorted_contacts)) then
  ret RetNone.

(** The loop over [email_content]: the first line whose first four
    characters are [From] gives the sender. *)
Fixpoint find_sender (email_content : list string) (sender_email : string)
  : string :=
  match email_content with
  | [] => sender_email
  | line :: rest =>
      if String.eqb "From" (PyStr.take 4 line)
      then PyStr.remove_char ">"
             (PyStr.remove_char "<"
                (List.last (PyStr.split " " (PyStr.strip line)) EmptyString))
      else find_sender rest sender_email
  end.

Definition extract_email_sender (filename output_file : json) : M pyret :=
  let* text := read_file filename in
  let sender_email := find_sender (file_lines text) "sujay@gmail.com" in
  do write_file output_file sender_email then
  ret RetNone.

(** The handlers whose body is a library matter. *)
Definition other (name : string) (args : list json) : M pyret :=
  fun w =>
    let '(r, fs) := other_body E name args (files w) in
    (r, set_files fs w).

End Handlers.

(** ** app.py: the registry

    [function_definitions_llm], without the descriptions and the numeric
    and array constraints: for each task its name, its properties (JSON
    type, pattern, default) and its [required] array. *)

Record PropSpec := mkProp {
  p_type : string;
  p_pattern : option string;
  p_default : option json
}.

Record TaskSpec := mkTask {
  ts_name : string;
  ts_properties : list (string * PropSpec);
  ts_required : list string
}.

Definition str_prop (pattern : string) : PropSpec :=
  mkProp "string" (Some pattern) None.
Definition str_prop_default (pattern default : string) : PropSpec :=
  mkProp "string" (Some pattern) (Some (JStr default)).

Definition function_definitions_llm : list TaskSpec :=
  [ mkTask "generate_data"
      [("email", str_prop "[\w\.-]+@[\w\.-]+\.\w+")]
      ["filename"; "targetfile"; "email"];
    mkTask "format_markdown"
      [("prettier_version", str_prop "prettier@\d+\.\d+\.\d+");
       ("filename", str_prop ".*/(.*\.md)")]
      ["prettier_version"; "filename"];
    mkTask "count_weekday_dates"
      [("filename", str_prop "/data/.*dates.*\.txt");
       ("targetfile", str_prop "/data/.*/(.*\.txt)");
       ("weekday", mkProp "integer"
          (Some "(Monday|Tuesday|Wednesday|Thursday|Friday|Saturday|Sunday)") None)]
      ["filename"; "targetfile"; "weekday"];
    mkTask "sort_contacts"
      [("filename", str_prop ".*/(.*\.json)");
       ("targetfile", str_prop ".*/(.*\.json)")]
      ["filename"; "targetfile"];
    mkTask "get_recent_logs"
      [("log_dir_path", str_prop_default ".*/logs" "/data/logs");
       ("output_file_path", str_prop_default ".*/(.*\.txt)" "/data/logs-recent.txt");
       ("num_files", mkProp "integer" None (Some (JInt 10)))]
      ["log_dir_path"; "output_file_path"; "num_files"];
    mkTask "create_docs_index"
      [("doc_dir_path", str_prop_default ".*/docs" "/data/docs");
       ("output_file_path", str_prop_default ".*/(.*\.json)" "/data/docs/index.json")]
      ["doc_dir_path"; "output_file_path"];
    mkTask "extract_email_sender"
      [("filename", str_prop_default ".*/(.*\.txt)" "/data/email.txt");
       ("output_file", str_prop_default ".*/(.*\.txt)" "/data/email-sender.txt")]
      ["filename"; "output_file"];
    mkTask "process_credit_card"
      [("filename", str_prop_default ".*/(.*\.txt)" "/data/credit-card.txt");
       ("image_path", str_prop_default ".*/(.*\.png)" "/data/credit-card.png")]
      ["filename"; "image_path"];
    mkTask "find_similar_comments"
      [("filename", str_prop_default ".*/(.*\.txt)" "/data/comments.txt");
       ("output_filename", str_prop_default ".*/(.*\.txt)" "/data/comments-similar.txt")]
      ["filename"; "output_filename"];
    mkTask "calculate_ticket_sales"
      [("filename", str_prop_default ".*/(.*\.db)" "/data/ticket-sales.db");
       ("output_filename", str_prop_default ".*/(.*\.txt)" "/data/ticket-sales-gold.txt");
       ("query", mkProp "string" None
          (Some (JStr "SELECT SUM(units * price) FROM tickets WHERE type = 'Gold'")))]
      ["filename"; "output_filename"; "query"];
    mkTask "validate_data_path"
      [("filepath", str_prop "^/data/.*")]
      ["filepath"];
    mkTask "download_url_content"
      [("url", str_prop "https?://.*");
       ("save_path", str_prop ".*/.*")]
      ["url"; "save_path"];
    mkTask "execute_sql_query"
      [("db_path", str_prop ".*/(.*\.db)");
       ("query", mkProp "string" None None);
       ("output_filename", str_prop ".*/(.*\.txt)")]
      ["db_path"; "query"; "output_filename"];
    mkTask "scrape_web_content"
      [("url", str_prop "https?://.*");
       ("output_filename", str_prop ".*/.*")]
      ["url"; "output_filename"];
    mkTask "process_image"
      [("image_path", str_prop ".*/(.*\.(jpg|jpeg|png|gif|bmp))");
       ("output_path", str_prop ".*/.*");
       ("resize", mkProp "array" None None)]
      ["image_path"; "output_path"];
    mkTask "convert_markdown_to_html"
      [("md_path", str_prop ".*/(.*\.md)");
       ("output_path", str_prop ".*/.*")]
      ["md_path"; "output_path"] ].

Definition registry_names : list string := map ts_name function_definitions_llm.

(** The [required] array the registry gives for a task name. *)
Definition registry_required (name : string) : list string :=
  match find (fun t => String.eqb (ts_name t) name) function_definitions_llm with
  | Some t => ts_required t
  | None => []
  end.

(** ** app.py: the dispatcher *)

(** A Python function as [run_task] sees it: name, parameters with their
    defaults, and body over the bound arguments in parameter order. *)
Record handler := mkHandler {
  h_name : string;
  h_params : list param;
  h_body : list json -> M pyret
}.

Section Dispatcher.
Context (E : Externals).

Definition required (name : string) : param := (name, None).
Definition optional (name : string) (default : json) : param := (name, Some default).

(** The sixteen [if "name" == task_code:] lines of [run_task], in order,
    each with the signature of the function it calls. *)
Definition routes : list handler :=
  [ mkHandler "generate_data"
      [optional "email" (JStr "22f1000913@ds.study.iitm.ac.in")]
      (other E "generate_data");
    mkHandler "format_markdown"
      [optional "prettier_version" (JStr "prettier@3.4.2");
       optional "filename" (JStr "/data/format.md")]
      (other E "format_markdown");
    mkHandler "count_weekday_dates"
      [optional "filename" (JStr "/data/dates.txt");
       optional "targetfile" (JStr "/data/dates-wednesdays.txt");
       optional "weekday" (JInt 2)]
      (fun a => count_weekday_dates E (arg 0 a) (arg 1 a) (arg 2 a));
    mkHandler "sort_contacts"
      [optional "filename" (JStr "/data/contacts.json");
       optional "targetfile" (JStr "/data/contacts-sorted.json")]
      (fun a => sort_contacts E (arg 0 a) (arg 1 a));
    mkHandler "get_recent_logs"
      [optional "log_dir_path" (JStr "/data/logs");
       optional "output_file_path" (JStr "/data/logs-recent.txt");
       optional "num_files" (JInt 10)]
      (other E "get_recent_logs");
    mkHandler "create_docs_index"
      [optional "doc_dir_path" (JStr "/data/docs");
       optional "output_file_path" (JStr "/data/docs/index.json")]
      (other E "create_docs_index");
    mkHandler "extract_email_sender"
      [optional "filename" (JStr "/data/email.txt");
       optional "output_file" (JStr "/data/email-sender.txt")]
      (fun a => extract_email_sender (arg 0 a) (arg 1 a));
    mkHandler "process_credit_card"
      [optional "filename" (JStr "/data/credit_card.txt");
       optional "image_path" (JStr "/data/credit_card.png")]
      (other E "process_credit_card");
    mkHandler "find_similar_comments"
      [optional "filename" (JStr "/data/comments.txt");
       optional "output_filename" (JStr "/data/comments-similar.txt")]
      (other E "find_similar_comments");
    mkHandler "calculate_ticket_sales"
      [optional "filename" (JStr "/data/ticket-sales.db");
       optional "output_filename" (JStr "/data/ticket-sales-gold.txt");
       optional "query"
         (JStr "SELECT SUM(units * price) FROM tickets WHERE type = 'Gold'")]
      (other E "calculate_ticket_sales");
    mkHandler "validate_data_path"
      [required "filepath"]
      (fun a => let* b := lift (validate_data_path_dyn (arg 0 a)) in ret (RetBool b));
    mkHandler "download_url_content"
      [required "url"; required "save_path"]
      (fun a => download_url_content E (arg 0 a) (arg 1 a));
    mkHandler "execute_sql_query"
      [required "db_path"; required "query"; required "output_filename"]
      (fun a => execute_sql_query E (arg 0 a) (arg 1 a) (arg 2 a));
    mkHandler "scrape_web_content"
      [required "url"; required "output_filename"]
      (fun a => scrape_web_content E (arg 0 a) (arg 1 a));
    mkHandler "process_image"
      [required "image_path"; required "output_path"; optional "resize" JNull]
      (fun a => process_image E (arg 0 a) (arg 1 a) (arg 2 a));
    mkHandler "convert_markdown_to_html"
      [required "md_path"; required "output_path"]
      (fun a => convert_markdown_to_html E (arg 0 a) (arg 1 a)) ].

(** One call [h] with [** json.loads(arguments)]: decode, require a
    mapping, bind, run. *)
Definition call (h : handler) (arguments : string) : M pyret :=
  let* v := lift (json_loads E arguments) in
  let* kwargs := lift (as_mapping (qualified_name (h_name h)) v) in
  let* args := lift (bind_kwargs (h_name h) (h_params h) kwargs) in
  do log_call (h_name h) then
  h_body h args.

(** What one firing line contributes: the call, its value dropped. *)
Definition fired (h : handler) (arguments : string) : M unit :=
  let* _ := call h arguments in ret tt.

(** The [if] lines, one after the other. *)
Fixpoint run_routes (rs : list handler) (task_code arguments : string) : M unit :=
  match rs with
  | [] => ret tt
  | h :: rest =>
      do (if String.eqb (h_name h) task_code
          then fired h arguments
          else ret tt)
      then run_routes rest task_code arguments
  end.

(** The spec's [dispatch(task_name, arguments_json)]: the body of the [try]
    after classification. *)
Definition dispatch (task_code arguments : string) : M unit :=
  run_routes routes task_code arguments.

(** What the endpoint answers: the JSON body with its one [message] or the
    [HTTPException] the [except] clause raises for the framework to render. *)
Inductive response : Type :=
| Message (message : string)
| HTTPException (status_code : Z) (detail : string).

Definition success_message (task_code task : string) : string :=
  task_code ++ " Task '" ++ task ++ "' executed successfully".

Definition run_task (task : string) (w : World) : response * World :=
  match get_completions E task with
  | inl e => (HTTPException 400 (exn_str e), w)
  | inr (task_code, arguments) =>
      match dispatch task_code arguments w with
      | (inl e, w') => (HTTPException 400 (exn_str e), w')
      | (inr _, w') => (Message (success_message task_code task), w')
      end
  end.

End Dispatcher.

(** ** A reference instance of the library functions

    A small closed world on which the model can be run: a JSON decoder and
    encoder for the values of the model, a classifier that reads a prompt
    made of the task name, a space and the argument text, a one-page web,
    ISO dates, engines that answer every query on an existing database
    with one row, and no Pillow, as in the dependency block of app.py.  Its
    error texts are its own.  The general theorems do
    not depend on it; the worked examples do. *)

Module Reference.

Definition dq : ascii := "034".
Definition bs : ascii := "092".

Definition is_ws (c : ascii) : bool :=
  let n := nat_of_ascii c in
  (n =? 32)%nat || (n =? 9)%nat || (n =? 10)%nat || (n =? 13)%nat.

Fixpoint skip_ws (s : string) : string :=
  match s with
  | String c r => if is_ws c then skip_ws r else s
  | EmptyString => s
  end.

Definition unescape (c : ascii) : option ascii :=
  if Ascii.eqb c dq then Some dq
  else if Ascii.eqb c bs then Some bs
  else if Ascii.eqb c "/" then Some "/"%char
  else if Ascii.eqb c "n" then Some "010"%char
  else if Ascii.eqb c "t" then Some "009"%char
  else if Ascii.eqb c "r" then Some "013"%char
  else if Ascii.eqb c "b" then Some "008"%char
  else if Ascii.eqb c "f" then Some "012"%char
  else None.

(** The text after an opening quote, up to the closing one. *)
Fixpoint string_body (s : string) : option (string * string) :=
  match s with
  | EmptyString => None
  | String c r =>
      if Ascii.eqb c dq then Some (EmptyString, r)
      else if Ascii.eqb c bs then
        match r with
        | String e r' =>
            match unescape e, string_body r' with
            | Some ch, Some (t, rest) => Some (String ch t, rest)
            | _, _ => None
            end
        | EmptyString => None
        end
      else if (nat_of_ascii c <? 32)%nat then None
      else match string_body r with
           | Some (t, rest) => Some (String c t, rest)
           | None => None
           end
  end.

Fixpoint digits (s : string) (acc : Z) : Z * string :=
  match s with
  | String c r =>
      match digit_of c with
      | Some d => digits r (10 * acc + d)
      | None => (acc, s)
      end
  | EmptyString => (acc, s)
  end.

(** [0] or a non-zero digit followed by digits; a fraction or an exponent
    is refused. *)
Definition natural (s : string) : option (Z * string) :=
  match s with
  | String c r =>
      match digit_of c with
      | Some d =>
          let '(n, rest) := if d =? 0 then (0, r) else digits r d in
          match rest with
          | String c' _ =>
              if Ascii.eqb c' "." || Ascii.eqb c' "e" || Ascii.eqb c' "E"
                 || match digit_of c' with Some _ => true | None => false end
              then None else Some (n, rest)
          | EmptyString => Some (n, rest)
          end
      | None => None
      end
  | EmptyString => None
  end.

Definition literal (word : string) (v : json) (s : string) : option (json * string) :=
  if PyStr.startswith s word
  then Some (v, String.substring (String.length word)
                                 (String.length s - String.length word) s)
  else None.

(** [d[k] = v] on an insertion-ordered dictionary. *)
Fixpoint dict_set (k : string) (v : json) (d : list (string * json))
  : list (string * json) :=
  match d with
  | [] => [(k, v)]
  | (k', v') :: d' =>
      if String.eqb k k' then (k, v) :: d' else (k', v') :: dict_set k v d'
  end.

Fixpoint parse_value (fuel : nat) (s : string) : option (json * string) :=
  match fuel with
  | O => None
  | S fuel' =>
      match skip_ws s with
      | EmptyString => None
      | String c r =>
          if Ascii.eqb c dq then
            match string_body r with
            | Some (t, rest) => Some (JStr t, rest)
            | None => None
            end
          else if Ascii.eqb c "[" then
            match skip_ws r with
            | String "]" rest => Some (JArr [], rest)
            | _ => match parse_elements fuel' r with
                   | Some (vs, rest) => Some (JArr vs, rest)
                   | None => None
                   end
            end
          else if Ascii.eqb c "{" then
            match skip_ws r with
            | String "}" rest => Some (JObj [], rest)
            | _ => match parse_members fuel' r with
                   | Some (ms, rest) =>
                       Some (JObj (fold_left (fun d kv => dict_set (fst kv) (snd kv) d)
                                             ms []), rest)
                   | None => None
                   end
            end
          else if Ascii.eqb c "-" then
            match natural r with
            | Some (n, rest) => Some (JInt (- n), rest)
            | None => None
            end
          else if Ascii.eqb c "n" then literal "ull" JNull r
          else if Ascii.eqb c "t" then literal "rue" (JBool true) r
          else if Ascii.eqb c "f" then literal "alse" (JBool false) r
          else match natural (String c r) with
               | Some (n, rest) => Some (JInt n, rest)
               | None => None
               end
      end
  end
with parse_elements (fuel : nat) (s : string) : option (list json * string) :=
  match fuel with
  | O => None
  | S fuel' =>
      match parse_value fuel' s with
      | Some (v, r) =>
          match skip_ws r with
          | String "," r' =>
              match parse_elements fuel' r' with
              | Some (vs, rest) => Some (v :: vs, rest)
              | None => None
              end
          | String "]" rest => Some ([v], rest)
          | _ => None
          end
      | None => None
      end
  end
with parse_members (fuel : nat) (s : string)
  : option (list (string * json) * string) :=
  match fuel with
  | O => None
  | S fuel' =>
      match skip_ws s with
      | String c r =>
          if Ascii.eqb c dq then
            match string_body r with
            | Some (k, r1) =>
                match skip_ws r1 with
                | String ":" r2 =>
                    match parse_value fuel' r2 with
                    | Some (v, r3) =>
                        match skip_ws r3 with
                        | String "," r4 =>
                            match parse_members fuel' r4 with
                            | Some (ms, rest) => Some ((k, v) :: ms, rest)
                            | None => None
                            end
                        | String "}" rest => Some ([(k, v)], rest)
                        | _ => None
                        end
                    | None => None
                    end
                | _ => None
                end
            | None => None
            end
          else None
      | EmptyString => None
      end
  end.

Definition JSONDecodeError : exn :=
  Exn "JSONDecodeError" "Expecting a JSON document of the model".

Definition loads (s : string) : result json :=
  match parse_value (2 * String.length s + 2) s with
  | Some (v, rest) =>
      match skip_ws rest with
      | EmptyString => inr v
      | _ => inl JSONDecodeError
      end
  | None => inl JSONDecodeError
  end.

(** JSON text written with apostrophes for the double quotes. *)
Fixpoint json_text (s : string) : string :=
  match s with
  | EmptyString => EmptyString
  | String c r => String (if Ascii.eqb c "'" then dq else c) (json_text r)
  end.

Definition hex_digit (n : nat) : ascii :=
  ascii_of_nat (if (n <? 10)%nat then 48 + n else 87 + n).

Definition escape_char (c : ascii) : string :=
  let n := nat_of_ascii c in
  if Ascii.eqb c dq then String bs (String dq EmptyString)
  else if Ascii.eqb c bs then String bs (String bs EmptyString)
  else if (n =? 10)%nat then String bs "n"
  else if (n =? 13)%nat then String bs "r"
  else if (n =? 9)%nat then String bs "t"
  else if (n =? 8)%nat then String bs "b"
  else if (n =? 12)%nat then String bs "f"
  else if (n <? 32)%nat || (127 <? n)%nat then
    String bs ("u00" ++ String (hex_digit (n / 16)) (String (hex_digit (n mod 16)) EmptyString))
  else String c EmptyString.

Fixpoint escape (s : string) : string :=
  match s with
  | EmptyString => EmptyString
  | String c r => escape_char c ++ escape r
  end.

Definition quoted (s : string) : string :=
  String dq (escape s ++ String dq EmptyString).

Fixpoint spaces (n : nat) : string :=
  match n with
  | O => EmptyString
  | S n' => String " " (spaces n')
  end.

Definition newline : string := String "010" EmptyString.

(** [json.dumps(v, indent=4)] at nesting depth [depth]. *)
Fixpoint dump (depth : nat) (v : json) {struct v} : string :=
  match v with
  | JNull => "null"
  | JBool true => "true"
  | JBool false => "false"
  | JInt n => str_of_int n
  | JStr s => quoted s
  | JArr [] => "[]"
  | JArr (x :: r) =>
      "[" ++ newline ++ spaces (4 * S depth) ++ dump (S depth) x
      ++ (fix items (l : list json) {struct l} : string :=
            match l with
            | [] => EmptyString
            | y :: l' => "," ++ newline ++ spaces (4 * S depth)
                         ++ dump (S depth) y ++ items l'
            end) r
      ++ newline ++ spaces (4 * depth) ++ "]"
  | JObj [] => "{}"
  | JObj ((k, x) :: r) =>
      "{" ++ newline ++ spaces (4 * S depth) ++ quoted k ++ ": " ++ dump (S depth) x
      ++ (fix members (l : list (string * json)) {struct l} : string :=
            match l with
            | [] => EmptyString
            | (k', y) :: l' => "," ++ newline ++ spaces (4 * S depth)
                               ++ quoted k' ++ ": " ++ dump (S depth) y ++ members l'
            end) r
      ++ newline ++ spaces (4 * depth) ++ "}"
  end.

Definition dump4 (v : json) : string := dump 0 v.

(** A prompt [name arguments] is classified as that call. *)
Fixpoint split_first_space (s : string) : string * string :=
  match s with
  | EmptyString => (EmptyString, EmptyString)
  | String c r =>
      if Ascii.eqb c " " then (EmptyString, r)
      else let '(a, b) := split_first_space r in (String c a, b)
  end.

Definition classify (task : string) : result (string * string) :=
  match task with
  | EmptyString => inl (Exn "IndexError" "list index out of range")
  | _ => inr (split_first_space task)
  end.

(** Days since 1970-01-01 of a civil date. *)
Definition days_from_civil (y m d : Z) : Z :=
  let y' := if m <=? 2 then y - 1 else y in
  let era := y' / 400 in
  let yoe := y' - era * 400 in
  let doy := (153 * (if 2 <? m then m - 3 else m + 9) + 2) / 5 + d - 1 in
  let doe := yoe * 365 + yoe / 4 - yoe / 100 + doy in
  era * 146097 + doe - 719468.

Definition days_in_month (y m : Z) : Z :=
  if m =? 2 then
    if ((y mod 4 =? 0) && negb (y mod 100 =? 0)) || (y mod 400 =? 0) then 29 else 28
  else if (m =? 4) || (m =? 6) || (m =? 9) || (m =? 11) then 30 else 31.

(** [parse(date).weekday()] for [YYYY-MM-DD], Monday being 0. *)
Definition iso_weekday (date : string) : result Z :=
  let bad := inl (Exn "ParserError" ("Unknown string format: " ++ date)) in
  match PyStr.split "-" (PyStr.strip date) with
  | [ys; ms; ds] =>
      match int_digits ys 0 false, int_digits ms 0 false, int_digits ds 0 false with
      | Some y, Some m, Some d =>
          if (String.length ys =? 4)%nat && (String.length ms =? 2)%nat
             && (String.length ds =? 2)%nat
             && (1 <=? m) && (m <=? 12) && (1 <=? d) && (d <=? days_in_month y m)
          then inr ((days_from_civil y m d + 3) mod 7)
          else bad
      | _, _, _ => bad
      end
  | _ => bad
  end.

Definition fetch (url : json) : result string :=
  match url with
  | JStr u => inr ("<html>" ++ u ++ "</html>")
  | _ => inl (Exn "MissingSchema" "Invalid URL: No scheme supplied.")
  end.

Definition engine (db_path : string) (query : json) (fs : gmap string string)
  : result string * gmap string string :=
  match fs !! db_path with
  | Some _ => (inr "[(1,)]", fs)
  | None => (inl (Exn "OperationalError" "unable to open database file"), fs)
  end.

Definition externals : Externals :=
  {| get_completions := classify;
     json_loads := loads;
     json_dump4 := dump4;
     requests_get := fetch;
     sqlite_run := engine;
     duckdb_run := engine;
     image_convert := fun img _ _ => inr img;
     markdown_render := fun text => inr ("<p>" ++ text ++ "</p>");
     parse_weekday := iso_weekday;
     import_pil := inl (Exn "ModuleNotFoundError" "No module named 'PIL'");
     other_body := fun _ _ fs => (inr RetNone, fs) |}.

(** [parse(date).weekday()] on a given day of the month: a text
    [YYYY-MM] takes its day from the current date, cut to the length of
    the month; a full date is read as before. *)
Definition weekday_on (today : Z) (date : string) : result Z :=
  match PyStr.split "-" (PyStr.strip date) with
  | [ys; ms] =>
      match int_digits ys 0 false, int_digits ms 0 false with
      | Some y, Some m =>
          if (String.length ys =? 4)%nat && (String.length ms =? 2)%nat
             && (1 <=? m) && (m <=? 12) && (1 <=? today) && (today <=? 31)
          then inr ((days_from_civil y m (Z.min today (days_in_month y m)) + 3)
                    mod 7)
          else iso_weekday date
      | _, _ => iso_weekday date
      end
  | _ => iso_weekday date
  end.

(** The same libraries on the [today]-th of the month. *)
Definition on_day (today : Z) : Externals :=
  {| get_completions := classify;
     json_loads := loads;
     json_dump4 := dump4;
     requests_get := fetch;
     sqlite_run := engine;
     duckdb_run := engine;
     image_convert := fun img _ _ => inr img;
     markdown_render := fun text => inr ("<p>" ++ text ++ "</p>");
     parse_weekday := weekday_on today;
     import_pil := inl (Exn "ModuleNotFoundError" "No module named 'PIL'");
     other_body := fun _ _ fs => (inr RetNone, fs) |}.

Definition world (fs : list (string * string)) : World :=
  mkWorld (list_to_map fs) [].

End Reference.

(** ** Vocabulary of the statements *)

(** A [str] the guard refuses, and one it lets through. *)
Definition rejected (v : json) : bool :=
  match v with
  | JStr p => negb (validate_data_path p)
  | _ => false
  end.

Definition accepted (v : json) : bool :=
  match v with
  | JStr p => validate_data_path p
  | _ => false
  end.

(** The handler named [task_code] checks the guard on some of its bound
    arguments and the first check that is reached fails:
    [download_url_content] checks [save_path], [execute_sql_query] checks
    [db_path], [process_image] and [convert_markdown_to_html] check their
    input path and then their output path. *)
Definition guard_rejects (task_code : string) (args : list json) : bool :=
  if String.eqb task_code "download_url_content" then rejected (arg 1 args)
  else if String.eqb task_code "execute_sql_query" then rejected (arg 0 args)
  else if String.eqb task_code "process_image"
          || String.eqb task_code "convert_markdown_to_html"
  then rejected (arg 0 args) || (accepted (arg 0 args) && rejected (arg 1 args))
  else false.

(** What the handler named [task_code] runs before its first guard test:
    [process_image] imports PIL; the other three reach their first test
    without a step that can raise. *)
Definition leading_import (E : Externals) (task_code : string) : result unit :=
  if String.eqb task_code "process_image" then import_pil E else inr tt.

(** The lines a handler iterates over when it reads [filename] in [w]:
    those of the file, none when there is no such file. *)
Definition input_lines (w : World) (filename : string) : list string :=
  match files w !! filename with
  | Some text => file_lines text
  | None => []
  end.

(** The answer of [run_task] once the body of a handler has run. *)
Definition answer (task_code task : string) (r : result pyret * World)
  : response * World :=
  match r with
  | (inl e, w') => (HTTPException 400 (exn_str e), w')
  | (inr _, w') => (Message (success_message task_code task), w')
  end.

(** The world in which the body of [name] starts. *)
Definition entered (name : string) (w : World) : World :=
  mkWorld (files w) (name :: calls w).

(** The two names of a contact whose [last_name] and [first_name] are
    strings. *)
Definition contact_names (c : json) : option (string * string) :=
  match c with
  | JObj m =>
      match dict_get "last_name" m, dict_get "first_name" m with
      | Some (JStr last_name), Some (JStr first_name) => Some (last_name, first_name)
      | _, _ => None
      end
  | _ => None
  end.

Definition is_contact (c : json) : Prop :=
  exists names, contact_names c = Some names.

(** Ascending order on (last name, first name): the last names decide,
    equal last names leave it to the first names; strings are compared
    character by character, by code point. *)
Definition names_le (a b : string * string) : Prop :=
  String.ltb (fst a) (fst b) = true
  \/ (fst a = fst b /\ String.leb (snd a) (snd b) = true).

Definition contact_le (x y : json) : Prop :=
  exists a b, contact_names x = Some a /\ contact_names y = Some b /\ names_le a b.

(** The same order as a three-way comparison. *)
Definition names_cmp (a b : string * string) : comparison :=
  match String.compare (fst a) (fst b) with
  | Eq => String.compare (snd a) (snd b)
  | c => c
  end.

(** The sort key of a contact with string names. *)
Definition names_key (a : string * string) : json * json :=
  (JStr (fst a), JStr (snd a)).

(** In a list of (key, item) pairs, [x] may stand before [y]: the key of
    [y] is not smaller; and a pair whose key is in a given class. *)
Definition key_le {K : Type} (ltb : K -> K -> bool) (x y : K * json) : Prop :=
  ltb (fst y) (fst x) = false.

Definition key_good {K : Type} (good : K -> Prop) (x : K * json) : Prop :=
  good (fst x).

(** A key made of two strings. *)
Definition string_keyed (k : json * json) : Prop := exists a, k = names_key a.

(** [<] on keys, read as a boolean (false when it raises). *)
Definition tuple_ltb (a b : json * json) : bool :=
  match tuple_lt a b with
  | inr true => true
  | _ => false
  end.

(** ** tasksA.py: the handlers that call a remote model or the database

    Their library calls: [get_embedding] is the function of that name
    (a request, then the vector of the answer); [cosine] is
    [scipy.spatial.distance.cosine]; distances are floats, of which the
    code uses [<] and [float('inf')] only; [chat_content] is what
    [process_credit_card] reads in the answer to the image it posts, the
    [content] of the first choice; [sqlite_fetchone] is connect, execute
    and [fetchone()], giving the first column of the row or no row. *)

(** A value in a row of the database.  [SqlOther] stands for a float or a
    blob through what the code uses of it: its truth value and [str]. *)
Inductive sqlvalue : Type :=
| SqlNull
| SqlInt (n : Z)
| SqlText (s : string)
| SqlOther (truth : bool) (shown : string).

Definition sql_truthy (v : sqlvalue) : bool :=
  match v with
  | SqlNull => false
  | SqlInt n => negb (n =? 0)
  | SqlText s => negb (String.eqb s "")
  | SqlOther truth _ => truth
  end.

Definition sql_str (v : sqlvalue) : string :=
  match v with
  | SqlNull => "None"
  | SqlInt n => str_of_int n
  | SqlText s => s
  | SqlOther _ shown => shown
  end.

Record Services := mkServices {
  embedding : Type;
  distance : Type;
  get_embedding : string -> result embedding;
  cosine : embedding -> embedding -> result distance;
  distance_lt : distance -> distance -> bool;
  infinity : distance;
  chat_content : string -> result string;
  sqlite_fetchone : json -> json -> gmap string string
                    -> result (option sqlvalue) * gmap string string
}.

Section RemoteHandlers.
Context (S : Services).

(** [[get_embedding(comment) for comment in comments]] *)
Fixpoint embed_all (comments : list string)
  : result (list (string * embedding S)) :=
  match comments with
  | [] => inr []
  | c :: rest =>
      let+ e := get_embedding S c in
      let+ r := embed_all rest in
      inr ((c, e) :: r)
  end.

(** The state of the two loops: [min_distance] and [most_similar], the
    latter [None] while it is still [(None, None)]. *)
Definition closest : Type := (distance S * option (string * string))%type.

(** The inner loop, [for j in range(i + 1, len(comments))]. *)
Fixpoint inner_loop (ci : string) (ei : embedding S)
         (later : list (string * embedding S)) (st : closest) : result closest :=
  match later with
  | [] => inr st
  | (cj, ej) :: later' =>
      let+ d := cosine S ei ej in
      inner_loop ci ei later'
        (if distance_lt S d (fst st) then (d, Some (ci, cj)) else st)
  end.

(** The outer loop, [for i in range(len(comments))]. *)
Fixpoint outer_loop (items : list (string * embedding S)) (st : closest)
  : result closest :=
  match items with
  | [] => inr st
  | (ci, ei) :: later =>
      let+ st' := inner_loop ci ei later st in
      outer_loop later st'
  end.

(** The final [with open(output_filename, 'w')]: the file is opened, hence
    emptied, before [most_similar[0] + '\n'] is evaluated. *)
Definition write_pair (output_filename : json) (most_similar : option (string * string))
  : M pyret :=
  let* p := lift (open_path output_filename) in
  match most_similar with
  | Some (a, b) =>
      do write_file output_filename
           (a ++ String "010" EmptyString ++ b ++ String "010" EmptyString) then
      ret RetNone
  | None =>
      fun w =>
        (inl (TypeError "unsupported operand type(s) for +: 'NoneType' and 'str'"),
         set_files (<[p := EmptyString]> (files w)) w)
  end.

Definition find_similar_comments (filename output_filename : json) : M pyret :=
  let* text := read_file filename in
  let comments := map PyStr.strip (file_lines text) in
  let* items := lift (embed_all comments) in
  let* st := lift (outer_loop items (infinity S, None)) in
  write_pair output_filename (snd st).

(** [png_to_base64(image_path)] reads the image; the request carries it;
    the card number is the answer without its spaces. *)
Definition process_credit_card (filename image_path : json) : M pyret :=
  let* image := read_file image_path in
  let* content := lift (chat_content S image) in
  let card_number := PyStr.remove_char " " content in
  do write_file filename card_number then
  ret RetNone.

Definition calculate_ticket_sales (filename output_filename query : json) : M pyret :=
  let* row := (fun w => let '(r, fs) := sqlite_fetchone S filename query (files w) in
                        (r, set_files fs w)) in
  match row with
  | None => raise (TypeError "'NoneType' object is not subscriptable")
  | Some total_sales =>
      let total_sales := if sql_truthy total_sales then total_sales else SqlInt 0 in
      do write_file output_filename (sql_str total_sales) then
      ret RetNone
  end.

End RemoteHandlers.

(** A reference instance of these services: an embedding is the comment
    itself, the distance of two comments the difference of their lengths,
    with [None] for infinity; the model reads the same digits on every
    card; a [SELECT] finds one row holding NULL, any other statement no
    row. *)

Module ReferenceServices.

Definition length_gap (a b : string) : result (option Z) :=
  inr (Some (Z.abs (Z.of_nat (String.length a) - Z.of_nat (String.length b)))).

Definition closer (a b : option Z) : bool :=
  match a, b with
  | Some x, Some y => x <? y
  | Some _, None => true
  | None, _ => false
  end.

Definition one_null_row (filename query : json) (fs : gmap string string)
  : result (option sqlvalue) * gmap string string :=
  match query with
  | JStr q =>
      if PyStr.startswith q "SELECT" then (inr (Some SqlNull), fs) else (inr None, fs)
  | _ => (inl (TypeError "execute() argument 1 must be str"), fs)
  end.

Definition services : Services :=
  {| embedding := string;
     distance := option Z;
     get_embedding := fun c => inr c;
     cosine := length_gap;
     distance_lt := closer;
     infinity := None;
     chat_content := fun _ => inr "4026 3992 3303 2816";
     sqlite_fetchone := one_null_row |}.

End ReferenceServices.

(** ** tasksA.py: [create_docs_index]

    The directory tree is the library's matter: [os_walk] is [os.walk], the
    directories it visits with the file names of each, in its order;
    [relpath] is [os.path.relpath]. *)

Record Directories := mkDirectories {
  os_walk : json -> gmap string string -> result (list (string * list string));
  relpath : string -> json -> result string
}.

(** [s[n:]] *)
Fixpoint str_drop (n : nat) (s : string) : string :=
  match n, s with
  | O, _ => s
  | S _, EmptyString => EmptyString
  | S n', String _ s' => str_drop n' s'
  end.

(** [s.replace(old, new)] for one-character [old] and [new]. *)
Fixpoint replace_char (old new : ascii) (s : string) : string :=
  match s with
  | EmptyString => EmptyString
  | String c s' => String (if Ascii.eqb c old then new else c) (replace_char old new s')
  end.

(** [os.path.join(root, file)] on POSIX. *)
Definition path_join (root file : string) : string :=
  if PyStr.startswith file "/" then file
  else if String.eqb root "" then file
  else if PyStr.endswith root "/" then root ++ file
  else root ++ "/" ++ file.

(** The inner [for line in f]: the title of the first line that starts
    with [# ], if there is one. *)
Fixpoint first_heading (lines : list string) : option string :=
  match lines with
  | [] => None
  | line :: rest =>
      if PyStr.startswith line "# " then Some (PyStr.strip (str_drop 2 line))
      else first_heading rest
  end.

Section DocsIndex.
Context (E : Externals) (D : Directories).

(** [for file in files] under one [root]. *)
Fixpoint index_files (root : string) (names : list string) (docs_dir : json)
         (index_data : list (string * json)) : M (list (string * json)) :=
  match names with
  | [] => ret index_data
  | file :: rest =>
      if PyStr.endswith file ".md" then
        let file_path := path_join root file in
        let* text := read_file (JStr file_path) in
        match first_heading (file_lines text) with
        | Some title =>
            let* rel := lift (relpath D file_path docs_dir) in
            let relative_path := replace_char "092" "/" rel in
            index_files root rest docs_dir
              (Reference.dict_set relative_path (JStr title) index_data)
        | None => index_files root rest docs_dir index_data
        end
      else index_files root rest docs_dir index_data
  end.

(** [for root, _, files in os.walk(docs_dir)] *)
Fixpoint index_dirs (dirs : list (string * list string)) (docs_dir : json)
         (index_data : list (string * json)) : M (list (string * json)) :=
  match dirs with
  | [] => ret index_data
  | (root, names) :: rest =>
      let* index_data' := index_files root names docs_dir index_data in
      index_dirs rest docs_dir index_data'
  end.

Definition create_docs_index (doc_dir_path output_file_path : json) : M pyret :=
  let* dirs := (fun w => (os_walk D doc_dir_path (files w), w)) in
  let* index_data := index_dirs dirs doc_dir_path [] in
  do write_file output_file_path (json_dump4 E (JObj index_data)) then
  ret RetNone.

End DocsIndex.

(** A reference tree: [/data/docs] with two markdown files, one of them
    in a subdirectory, and a text file. *)

Module ReferenceDirectories.

Definition directories : Directories :=
  {| os_walk := fun _ _ => inr [("/data/docs", ["intro.md"; "notes.txt"]);
                                ("/data/docs/sub", ["deep.md"])];
     relpath := fun path _ => inr (str_drop 11 path) |}.

Definition empty_tree : Directories :=
  {| os_walk := fun _ _ => inr [("/data/docs", ["notes.txt"])];
     relpath := fun path _ => inr (str_drop 11 path) |}.

End ReferenceDirectories.

(** A title found in the tree: the heading of a markdown file that the
    walk lists and the file system holds. *)
Definition listed_title (dirs : list (string * list string))
           (fs : gmap string string) (v : json) : Prop :=
  exists root names file text title,
    In (root, names) dirs /\ In file names
    /\ PyStr.endswith file ".md" = true
    /\ fs !! path_join root file = Some text
    /\ first_heading (file_lines text) = Some title
    /\ v = JStr title.

(** ** Vocabulary of the further statements *)

(** [c in s] *)
Fixpoint contains_char (c : ascii) (s : string) : bool :=
  match s with
  | EmptyString => false
  | String d s' => Ascii.eqb d c || contains_char c s'
  end.

(** An argument object that follows the registry entry [t]: every key is
    a declared property and every name of [required] is supplied. *)
Definition conforms (t : TaskSpec) (kwargs : list (string * json)) : bool :=
  forallb (fun kv => existsb (String.eqb (fst kv)) (map fst (ts_properties t))) kwargs
  && forallb (fun name => match dict_get name kwargs with
                          | Some _ => true
                          | None => false
                          end) (ts_required t).

(** The registry entry [t] and the function [h] agree: every declared
    property is a parameter of the function, and every parameter without
    default is in the [required] array. *)
Definition compatible (t : TaskSpec) (h : handler) : bool :=
  forallb (has_param (h_params h)) (map fst (ts_properties t))
  && forallb (fun p => match snd p with
                       | Some _ => true
                       | None => existsb (String.eqb (fst p)) (ts_required t)
                       end) (h_params h).

(** In a list of (key, item) pairs, [y] may follow [x]: the comparison
    [y < x] answers false. *)
Definition never_smaller {K : Type} (lt : K -> K -> result bool)
           (x y : K * json) : Prop :=
  lt (fst y) (fst x) = inr false.

(** Only whitespace, in the sense of [str.strip()]. *)
Fixpoint all_space (s : string) : bool :=
  match s with
  | EmptyString => true
  | String c s' => PyStr.is_space c && all_space s'
  end.

(** A computation that leaves the log of handler calls alone. *)
Definition keeps_calls {A : Type} (c : M A) : Prop :=
  forall w r w', c w = (r, w') -> calls w' = calls w.

(** A computation that leaves the world as it is or makes one write, to
    the path string [target], which the guard accepts. *)
Definition writes_only_guarded {A : Type} (target : json) (c : M A) : Prop :=
  forall w r w',
    c w = (r, w') ->
    w' = w
    \/ exists p text,
         target = JStr p /\ validate_data_path p = true
         /\ w' = mkWorld (<[p := text]> (files w)) (calls w).

(** * Properties *)

(** ** Strings and the path guard *)

Lemma startswith_spec (s pre : string) :
  PyStr.startswith s pre = true <-> exists rest, s = pre ++ rest.
Proof.
  unfold PyStr.startswith. revert s.
  induction pre as [|c pre IH]; intros s; simpl.
  - split; [intros _; exists s; reflexivity|].
    intros _; destruct s; reflexivity.
  - destruct s as [|d s]; simpl.
    + split; [discriminate|]. intros [r Hr]; discriminate.
    + destruct (Ascii.ascii_dec c d) as [->|Hne].
      * rewrite IH. split; intros [r Hr]; exists r.
        -- now rewrite Hr.
        -- now inversion Hr.
      * split; [discriminate|]. intros [r Hr]. inversion Hr. congruence.
Qed.

(** C1, the claim as written fails: two paths that are not rooted under
    [/data] in the spec's sense pass the guard. *)
Lemma path_guard_accepts_unrooted :
  validate_data_path "/database/x" = true
  /\ spec_is_confined "/database/x" = false
  /\ validate_data_path "/data/../etc/passwd" = true
  /\ spec_is_confined "/data/../etc/passwd" = false.
Proof. repeat split; reflexivity. Qed.

Lemma validate_data_path_unfold (p : string) :
  validate_data_path p = PyStr.startswith p "/data".
Proof. unfold validate_data_path. now destruct (PyStr.startswith p "/data"). Qed.

(** Every path the spec calls rooted, taken literally, passes the guard. *)
Lemma rooted_paths_pass_guard (p : string) :
  p = "/data" \/ PyStr.startswith p "/data/" = true ->
  validate_data_path p = true.
Proof.
  intros [->|H]; [reflexivity|].
  rewrite validate_data_path_unfold. apply startswith_spec.
  apply startswith_spec in H as [r ->]. exists ("/" ++ r). reflexivity.
Qed.

(** C1, amended: the guard returns true exactly for the paths that begin
    with the five characters [/data]; nothing is normalised and no segment
    boundary is required after the prefix. *)
Theorem validate_data_path_iff_prefix (p : string) :
  validate_data_path p = true <-> exists rest, p = "/data" ++ rest.
Proof.
  rewrite validate_data_path_unfold. apply startswith_spec.
Qed.

(** ** Routing

    The task names of the [if] chain are the registry's, and distinct, so
    at most one line fires. *)

Lemma routes_names (E : Externals) : map h_name (routes E) = registry_names.
Proof. reflexivity. Qed.

Lemma registry_names_NoDup : NoDup registry_names.
Proof. apply (bool_decide_unpack _). vm_compute. reflexivity. Qed.

Lemma registry_has_sixteen_tasks : List.length registry_names = 16%nat.
Proof. reflexivity. Qed.

Section Routing.
Context (E : Externals).

Lemma run_routes_miss (rs : list handler) (task_code arguments : string) (w : World) :
  ~ In task_code (map h_name rs) ->
  run_routes E rs task_code arguments w = (inr tt, w).
Proof.
  induction rs as [|h rs IH]; intros Hnot; [reflexivity|].
  simpl in *. unfold bind at 1.
  destruct (String.eqb_spec (h_name h) task_code) as [Heq|Hne].
  - exfalso. apply Hnot. now left.
  - simpl. apply IH. intros Hin. apply Hnot. now right.
Qed.

Lemma run_routes_hit (rs : list handler) (h : handler)
      (task_code arguments : string) (w : World) :
  NoDup (map h_name rs) -> In h rs -> h_name h = task_code ->
  run_routes E rs task_code arguments w = fired E h arguments w.
Proof.
  induction rs as [|h0 rs IH]; intros Hnd Hin Hname; [destruct Hin|].
  simpl in Hnd. inversion Hnd as [|x l Hfresh Hnd']; subst x l.
  rewrite list_elem_of_In in Hfresh.
  simpl. unfold bind at 1.
  destruct Hin as [->|Hin].
  - rewrite Hname, String.eqb_refl.
    destruct (fired E h arguments w) as [[e|r] w']; [reflexivity|].
    destruct r. apply run_routes_miss. now rewrite <- Hname.
  - destruct (String.eqb_spec (h_name h0) task_code) as [Heq|Hne].
    + exfalso. apply Hfresh. rewrite Heq, <- Hname. now apply in_map.
    + simpl. now apply IH.
Qed.

Lemma dispatch_miss (task_code arguments : string) (w : World) :
  ~ In task_code registry_names ->
  dispatch E task_code arguments w = (inr tt, w).
Proof. intros H. apply run_routes_miss. now rewrite routes_names. Qed.

Lemma dispatch_hit (h : handler) (task_code arguments : string) (w : World) :
  In h (routes E) -> h_name h = task_code ->
  dispatch E task_code arguments w = fired E h arguments w.
Proof.
  intros. apply run_routes_hit; auto.
  rewrite routes_names. apply registry_names_NoDup.
Qed.

Lemma registered_route (task_code : string) :
  In task_code registry_names ->
  exists h, In h (routes E) /\ h_name h = task_code.
Proof.
  rewrite <- (routes_names E). intros H.
  apply in_map_iff in H as [h [Hn Hin]]. eauto.
Qed.

(** A call whose argument text does not decode raises before anything is
    bound or run. *)
Lemma call_decode_error (h : handler) (arguments : string) (e : exn) (w : World) :
  json_loads E arguments = inl e -> call E h arguments w = (inl e, w).
Proof. intros H. unfold call, bind, lift. now rewrite H. Qed.

(** A call that decodes to a dictionary and binds enters the body. *)
Lemma call_enters_body (h : handler) (arguments : string)
      (kwargs : list (string * json)) (args : list json) (w : World) :
  json_loads E arguments = inr (JObj kwargs) ->
  bind_kwargs (h_name h) (h_params h) kwargs = inr args ->
  call E h arguments w
  = h_body h args (mkWorld (files w) (h_name h :: calls w)).
Proof.
  intros Hl Hb. unfold call, bind, lift, log_call. rewrite Hl. simpl.
  now rewrite Hb.
Qed.

Lemma call_binding_error (h : handler) (arguments : string)
      (kwargs : list (string * json)) (e : exn) (w : World) :
  json_loads E arguments = inr (JObj kwargs) ->
  bind_kwargs (h_name h) (h_params h) kwargs = inl e ->
  call E h arguments w = (inl e, w).
Proof.
  intros Hl Hb. unfold call, bind, lift. rewrite Hl. simpl. now rewrite Hb.
Qed.

End Routing.

(** ** The dispatcher's outcomes *)

Section Outcomes.
Context (E : Externals).

Lemma fired_call (h : handler) (arguments : string) (w : World) :
  fired E h arguments w
  = match call E h arguments w with
    | (inl e, w') => (inl e, w')
    | (inr _, w') => (inr tt, w')
    end.
Proof. unfold fired, bind, ret. now destruct (call E h arguments w) as [[e|r] w']. Qed.

(** [run_task] on a registered name is the one matching call. *)
Lemma run_task_registered (task task_code arguments : string) (h : handler) (w : World) :
  get_completions E task = inr (task_code, arguments) ->
  In h (routes E) -> h_name h = task_code ->
  run_task E task w
  = match call E h arguments w with
    | (inl e, w') => (HTTPException 400 (exn_str e), w')
    | (inr _, w') => (Message (success_message task_code task), w')
    end.
Proof.
  intros Hc Hin Hn. unfold run_task. rewrite Hc.
  rewrite (dispatch_hit E h) by assumption. rewrite fired_call.
  now destruct (call E h arguments w) as [[e|r] w'].
Qed.

Lemma run_task_unregistered (task task_code arguments : string) (w : World) :
  get_completions E task = inr (task_code, arguments) ->
  ~ In task_code registry_names ->
  run_task E task w = (Message (success_message task_code task), w).
Proof.
  intros Hc Hn. unfold run_task. rewrite Hc.
  now rewrite dispatch_miss by assumption.
Qed.

End Outcomes.

(** C3, the claim as written fails: a name outside the registry is
    answered with the success message. *)
Lemma unknown_task_reports_success :
  ~ In "frobnicate" registry_names
  /\ run_task Reference.externals "frobnicate {}" (Reference.world [])
     = (Message "frobnicate Task 'frobnicate {}' executed successfully",
        Reference.world []).
Proof.
  split; [|vm_compute; reflexivity].
  apply (bool_decide_unpack _). vm_compute. reflexivity.
Qed.

(** C3, amended: for every task name absent from the registry, [run_task]
    runs no handler, leaves the world as it was and answers with the same
    success message a completed task gets. *)
Theorem unknown_task_is_silent_noop
        (E : Externals) (task task_code arguments : string) (w : World) :
  get_completions E task = inr (task_code, arguments) ->
  ~ In task_code registry_names ->
  run_task E task w = (Message (success_message task_code task), w).
Proof. apply run_task_unregistered. Qed.

Lemma unknown_task_is_silent_noop_witness :
  run_task Reference.externals "frobnicate {}" (Reference.world [])
  = (Message (success_message "frobnicate" "frobnicate {}"), Reference.world []).
Proof.
  apply (unknown_task_is_silent_noop Reference.externals
           "frobnicate {}" "frobnicate" "{}").
  - reflexivity.
  - apply (bool_decide_unpack _). vm_compute. reflexivity.
Defined.

(** C5: whatever the completion service, the decoder, the binding or the
    handler raises is caught by [run_task] and answered as an
    [HTTPException] of status 400 whose detail is the exception's text; and
    [run_task] always answers, with a message or with such a failure. *)
Theorem run_task_catches_exceptions (E : Externals) (task : string) (w : World) :
  (forall e, get_completions E task = inl e ->
             run_task E task w = (HTTPException 400 (exn_str e), w))
  /\ (forall task_code arguments h e w',
         get_completions E task = inr (task_code, arguments) ->
         In h (routes E) -> h_name h = task_code ->
         call E h arguments w = (inl e, w') ->
         run_task E task w = (HTTPException 400 (exn_str e), w'))
  /\ (exists text, fst (run_task E task w) = Message text
                   \/ fst (run_task E task w) = HTTPException 400 text).
Proof.
  split; [|split].
  - intros e He. unfold run_task. now rewrite He.
  - intros task_code arguments h e w' Hc Hin Hn Hcall.
    rewrite (run_task_registered E task task_code arguments h) by assumption.
    now rewrite Hcall.
  - unfold run_task.
    destruct (get_completions E task) as [e|[task_code arguments]].
    + exists (exn_str e). now right.
    + destruct (dispatch E task_code arguments w) as [[e|u] w'].
      * exists (exn_str e). now right.
      * eexists. left. reflexivity.
Qed.

Lemma run_task_catches_exceptions_witness :
  run_task Reference.externals "validate_data_path {}" (Reference.world [])
  = (HTTPException 400
       "validate_data_path() missing 1 required positional argument: 'filepath'",
     Reference.world []).
Proof.
  pose proof (run_task_catches_exceptions Reference.externals
                "validate_data_path {}" (Reference.world [])) as [_ [H _]].
  apply (H "validate_data_path" "{}"
           (mkHandler "validate_data_path" [required "filepath"]
              (fun a => let* b := lift (validate_data_path_dyn (arg 0 a)) in
                        ret (RetBool b)))
           (TypeError "validate_data_path() missing 1 required positional argument: 'filepath'")).
  - reflexivity.
  - simpl. do 10 right. left. reflexivity.
  - reflexivity.
  - vm_compute. reflexivity.
Defined.

(** C6, the claim as written fails: with a name outside the registry the
    argument text is never decoded, and malformed text is answered with the
    success message. *)
Lemma malformed_arguments_unknown_task_succeed :
  (exists e, json_loads Reference.externals "{" = inl e)
  /\ run_task Reference.externals "frobnicate {" (Reference.world [])
     = (Message "frobnicate Task 'frobnicate {' executed successfully",
        Reference.world []).
Proof. split; [eexists|]; vm_compute; reflexivity. Qed.

(** C6, amended: for every registered task name and every argument text
    the decoder rejects, [run_task] answers with an [HTTPException] of
    status 400 whose detail is the decoder's own error text, and the world,
    log of handler calls included, is unchanged: no handler ran. *)
Theorem malformed_arguments_rejected
        (E : Externals) (task task_code arguments : string) (e : exn) (w : World) :
  get_completions E task = inr (task_code, arguments) ->
  In task_code registry_names ->
  json_loads E arguments = inl e ->
  run_task E task w = (HTTPException 400 (exn_str e), w).
Proof.
  intros Hc Hin Hl.
  destruct (registered_route E task_code Hin) as [h [Hh Hn]].
  rewrite (run_task_registered E task task_code arguments h) by assumption.
  now rewrite (call_decode_error E h arguments e).
Qed.

Lemma malformed_arguments_rejected_witness :
  run_task Reference.externals "sort_contacts {" (Reference.world [])
  = (HTTPException 400 "Expecting a JSON document of the model",
     Reference.world []).
Proof.
  apply (malformed_arguments_rejected Reference.externals
           "sort_contacts {" "sort_contacts" "{"
           Reference.JSONDecodeError).
  - reflexivity.
  - simpl. do 3 right. left. reflexivity.
  - reflexivity.
Defined.

(** ** Files *)

Lemma read_file_found (p text : string) (w : World) :
  files w !! p = Some text -> read_file (JStr p) w = (inr text, w).
Proof. intros H. unfold read_file, bind, lift. simpl. now rewrite H. Qed.

Lemma read_file_missing (p : string) (w : World) :
  files w !! p = None -> read_file (JStr p) w = (inl (FileNotFoundError p), w).
Proof. intros H. unfold read_file, bind, lift. simpl. now rewrite H. Qed.

Lemma write_file_str (p text : string) (w : World) :
  write_file (JStr p) text w
  = (inr tt, mkWorld (<[p := text]> (files w)) (calls w)).
Proof. reflexivity. Qed.

(** ** The guarded handlers *)

Section Guard.
Context (E : Externals).

Lemma rejected_guard (v : json) :
  rejected v = true -> validate_data_path_dyn v = inr false.
Proof.
  destruct v; simpl; try discriminate.
  intros H. now apply negb_true_iff in H as ->.
Qed.

Lemma accepted_guard (v : json) :
  accepted v = true -> validate_data_path_dyn v = inr true.
Proof. destruct v; simpl; try discriminate. now intros ->. Qed.

Lemma download_url_content_rejected (url save_path : json) (w : World) :
  rejected save_path = true ->
  download_url_content E url save_path w = (inr RetNone, w).
Proof.
  intros H. unfold download_url_content, bind, lift.
  now rewrite (rejected_guard _ H).
Qed.

Lemma execute_sql_query_rejected (db_path query output_filename : json) (w : World) :
  rejected db_path = true ->
  execute_sql_query E db_path query output_filename w = (inr RetNone, w).
Proof.
  intros H. unfold execute_sql_query, bind, lift.
  now rewrite (rejected_guard _ H).
Qed.

Lemma process_image_rejected (image_path output_path resize : json) (w : World)
      (u : unit) :
  import_pil E = inr u ->
  rejected image_path = true
  \/ (accepted image_path = true /\ rejected output_path = true) ->
  process_image E image_path output_path resize w = (inr RetNone, w).
Proof.
  intros Hi [H|[Ha H]]; unfold process_image, bind, lift; rewrite Hi.
  - now rewrite (rejected_guard _ H).
  - now rewrite (accepted_guard _ Ha), (rejected_guard _ H).
Qed.

(** Without Pillow the body stops at its first line, whatever the paths. *)
Lemma process_image_import_fails (image_path output_path resize : json) (w : World)
      (e : exn) :
  import_pil E = inl e ->
  process_image E image_path output_path resize w = (inl e, w).
Proof. intros Hi. unfold process_image, bind, lift. now rewrite Hi. Qed.

Lemma convert_markdown_to_html_rejected (md_path output_path : json) (w : World) :
  rejected md_path = true
  \/ (accepted md_path = true /\ rejected output_path = true) ->
  convert_markdown_to_html E md_path output_path w = (inr RetNone, w).
Proof.
  intros [H|[Ha H]]; unfold convert_markdown_to_html, bind, lift.
  - now rewrite (rejected_guard _ H).
  - now rewrite (accepted_guard _ Ha), (rejected_guard _ H).
Qed.

Lemma two_checks (a b : json) :
  rejected a || (accepted a && rejected b) = true ->
  rejected a = true \/ (accepted a = true /\ rejected b = true).
Proof.
  intros H. apply orb_true_iff in H as [H|H]; [now left|].
  apply andb_true_iff in H. now right.
Qed.

(** A guarded body whose guard fails hands back [None] and touches
    nothing, once the import that precedes the guard has succeeded; when
    that import raises, the body raises and touches nothing either. *)
Lemma guarded_body_rejected (h : handler) (args : list json) (w : World) :
  In h (routes E) -> guard_rejects (h_name h) args = true ->
  match leading_import E (h_name h) with
  | inr _ => h_body h args w = (inr RetNone, w)
  | inl e => h_body h args w = (inl e, w)
  end.
Proof.
  intros Hin Hg. simpl in Hin.
  repeat (destruct Hin as [<-|Hin]; [simpl in Hg |- *; try discriminate Hg|]);
    [| | | |destruct Hin].
  - now apply download_url_content_rejected.
  - now apply execute_sql_query_rejected.
  - unfold leading_import. simpl. destruct (import_pil E) as [e|u] eqn:Hi.
    + now apply process_image_import_fails.
    + apply (process_image_rejected _ _ _ _ u Hi). now apply two_checks.
  - apply convert_markdown_to_html_rejected. now apply two_checks.
Qed.

End Guard.

(** C2, the claim as written fails: a download aimed at [/etc/passwd] is
    refused by the guard, yet [run_task] answers with the success message,
    not with a failure. *)
Lemma rejected_path_reports_success :
  validate_data_path "/etc/passwd" = false
  /\ run_task Reference.externals
       (Reference.json_text
          "download_url_content {'url': 'http://x', 'save_path': '/etc/passwd'}")
       (Reference.world [])
     = (Message
          (success_message "download_url_content"
             (Reference.json_text
                "download_url_content {'url': 'http://x', 'save_path': '/etc/passwd'}")),
        entered "download_url_content" (Reference.world [])).
Proof. split; vm_compute; reflexivity. Qed.

(** C2, amended: when a request reaches one of the four guarded handlers
    and the guard refuses a guarded path argument (it is a string that does
    not begin with [/data]), no file is created or written anywhere.  The
    handler returns [None] without raising and [run_task] answers with the
    success message; the one exception is [process_image], which imports
    PIL before it looks at a path: when that import raises, [run_task]
    answers 400 with the text of the import error. *)
Theorem guard_rejection_is_silent
        (E : Externals) (task task_code arguments : string) (h : handler)
        (kwargs : list (string * json)) (args : list json) (w : World) :
  get_completions E task = inr (task_code, arguments) ->
  In h (routes E) -> h_name h = task_code ->
  json_loads E arguments = inr (JObj kwargs) ->
  bind_kwargs task_code (h_params h) kwargs = inr args ->
  guard_rejects task_code args = true ->
  files (snd (run_task E task w)) = files w
  /\ match leading_import E task_code with
     | inr _ =>
         h_body h args (entered task_code w) = (inr RetNone, entered task_code w)
         /\ run_task E task w
            = (Message (success_message task_code task), entered task_code w)
     | inl e =>
         run_task E task w
         = (HTTPException 400 (exn_str e), entered task_code w)
     end.
Proof.
  intros Hc Hin Hn Hl Hb Hg. subst task_code.
  pose proof (guarded_body_rejected E h args (entered (h_name h) w) Hin Hg)
    as Hbody.
  assert (Hrun : run_task E task w
                 = answer (h_name h) task (h_body h args (entered (h_name h) w))).
  { rewrite (run_task_registered E task (h_name h) arguments h) by auto.
    rewrite (call_enters_body E h arguments kwargs args) by assumption.
    fold (entered (h_name h) w). unfold answer.
    now destruct (h_body h args (entered (h_name h) w)) as [[e|v] w']. }
  destruct (leading_import E (h_name h)) as [e|u];
    rewrite Hrun, Hbody; simpl; auto.
Qed.

Lemma guard_rejection_is_silent_witness :
  let task := Reference.json_text
                "download_url_content {'url': 'http://x', 'save_path': '/etc/passwd'}" in
  let w := Reference.world [] in
  files (snd (run_task Reference.externals task w)) = files w
  /\ download_url_content Reference.externals (JStr "http://x") (JStr "/etc/passwd")
                          (entered "download_url_content" w)
     = (inr RetNone, entered "download_url_content" w)
  /\ run_task Reference.externals task w
     = (Message (success_message "download_url_content" task),
        entered "download_url_content" w).
Proof.
  apply (guard_rejection_is_silent Reference.externals
           (Reference.json_text
              "download_url_content {'url': 'http://x', 'save_path': '/etc/passwd'}")
           "download_url_content"
           (Reference.json_text "{'url': 'http://x', 'save_path': '/etc/passwd'}")
           (mkHandler "download_url_content" [required "url"; required "save_path"]
              (fun a => download_url_content Reference.externals (arg 0 a) (arg 1 a)))
           [("url", JStr "http://x"); ("save_path", JStr "/etc/passwd")]
           [JStr "http://x"; JStr "/etc/passwd"]
           (Reference.world [])).
  - reflexivity.
  - simpl. do 11 right. left. reflexivity.
  - reflexivity.
  - vm_compute. reflexivity.
  - reflexivity.
  - reflexivity.
Defined.

(** ** [execute_sql_query] and its output file *)

(** C9: [execute_sql_query] checks the guard on [db_path] only.  With a
    [db_path] the guard accepts and a query the engine answers, the rows
    are written to [output_filename] whatever that path is; no check of
    any kind is made on it. *)
Theorem execute_sql_query_output_unguarded
        (E : Externals) (db_path output_filename rows : string) (query : json)
        (fs : gmap string string) (w : World) :
  validate_data_path db_path = true ->
  (if PyStr.endswith db_path ".db" then sqlite_run E else duckdb_run E)
    db_path query (files w) = (inr rows, fs) ->
  execute_sql_query E (JStr db_path) query (JStr output_filename) w
  = (inr (RetRows rows), mkWorld (<[output_filename := rows]> fs) (calls w)).
Proof.
  intros Hg Hq. unfold execute_sql_query, bind, lift. simpl.
  rewrite Hg. simpl.
  destruct (PyStr.endswith db_path ".db"); rewrite Hq; reflexivity.
Qed.

Lemma execute_sql_query_output_unguarded_witness :
  validate_data_path "/etc/out.txt" = false
  /\ spec_is_confined "/etc/out.txt" = false
  /\ execute_sql_query Reference.externals (JStr "/data/t.db") (JStr "select 1")
                       (JStr "/etc/out.txt") (Reference.world [("/data/t.db", "")])
     = (inr (RetRows "[(1,)]"),
        mkWorld (<["/etc/out.txt" := "[(1,)]"]> (list_to_map [("/data/t.db", "")])) []).
Proof.
  split; [reflexivity|]. split; [reflexivity|].
  apply (execute_sql_query_output_unguarded Reference.externals
           "/data/t.db" "/etc/out.txt" "[(1,)]" (JStr "select 1")
           (list_to_map [("/data/t.db", "")])
           (Reference.world [("/data/t.db", "")])).
  - reflexivity.
  - vm_compute. reflexivity.
Defined.

(** ** Binding the arguments *)

Section Binding.
Context (fname : string) (params : list param) (kwargs : list (string * json)).






End Binding.




(** ** Order on strings and on pairs of names *)

Lemma ascii_compare_refl (a : ascii) : Ascii.compare a a = Eq.
Proof. apply N.compare_refl. Qed.

Lemma ascii_compare_lt_trans (a b c : ascii) :
  Ascii.compare a b = Lt -> Ascii.compare b c = Lt -> Ascii.compare a c = Lt.
Proof.
  unfold Ascii.compare. rewrite !N.compare_lt_iff. apply N.lt_trans.
Qed.

Lemma string_compare_refl (s : string) : String.compare s s = Eq.
Proof. induction s; simpl; [reflexivity|]. now rewrite ascii_compare_refl. Qed.

Lemma string_compare_lt_trans (s t u : string) :
  String.compare s t = Lt -> String.compare t u = Lt -> String.compare s u = Lt.
Proof.
  revert t u. induction s as [|a s IH]; intros [|b t] [|c u]; simpl;
    try discriminate; try reflexivity.
  destruct (Ascii.compare a b) eqn:Hab; try discriminate;
    destruct (Ascii.compare b c) eqn:Hbc; try discriminate; intros H1 H2.
  - apply Ascii.compare_eq_iff in Hab, Hbc. subst.
    rewrite ascii_compare_refl. now apply (IH t).
  - apply Ascii.compare_eq_iff in Hab. subst. now rewrite Hbc.
  - apply Ascii.compare_eq_iff in Hbc. subst. now rewrite Hab.
  - now rewrite (ascii_compare_lt_trans a b c).
Qed.

Lemma names_cmp_antisym (a b : string * string) :
  names_cmp a b = CompOpp (names_cmp b a).
Proof.
  unfold names_cmp. rewrite (String.compare_antisym (fst a) (fst b)).
  destruct (String.compare (fst b) (fst a)); simpl; try reflexivity.
  apply String.compare_antisym.
Qed.

Lemma names_cmp_lt_trans (a b c : string * string) :
  names_cmp a b = Lt -> names_cmp b c = Lt -> names_cmp a c = Lt.
Proof.
  unfold names_cmp.
  destruct (String.compare (fst a) (fst b)) eqn:Hab; try discriminate;
    destruct (String.compare (fst b) (fst c)) eqn:Hbc; try discriminate;
    intros H1 H2.
  - apply String.compare_eq_iff in Hab, Hbc. rewrite Hab, Hbc.
    rewrite string_compare_refl. now apply (string_compare_lt_trans _ (snd b)).
  - apply String.compare_eq_iff in Hab. now rewrite Hab, Hbc.
  - apply String.compare_eq_iff in Hbc. now rewrite <- Hbc, Hab.
  - now rewrite (string_compare_lt_trans _ _ _ Hab Hbc).
Qed.

(** [names_le a b] says that [b] is not before [a]. *)
Lemma names_le_cmp (a b : string * string) :
  names_le a b <-> names_cmp b a <> Lt.
Proof.
  rewrite names_cmp_antisym. unfold names_le, names_cmp, String.ltb, String.leb.
  destruct (String.compare (fst a) (fst b)) eqn:Hc; simpl.
  - apply String.compare_eq_iff in Hc.
    destruct (String.compare (snd a) (snd b)); simpl; split;
      try discriminate; try tauto; try (intros _; right; split; auto);
      intros [H|[_ H]]; discriminate.
  - split; [discriminate|]. intros _. now left.
  - split; [|tauto]. intros [H|[H _]]; [discriminate|].
    rewrite H, string_compare_refl in Hc. discriminate.
Qed.

(** On string keys the tuple comparison never raises and is the
    lexicographic one. *)
Lemma tuple_lt_names (a b : string * string) :
  tuple_lt (names_key a) (names_key b)
  = inr (match names_cmp a b with Lt => true | _ => false end).
Proof.
  destruct a as [l1 f1], b as [l2 f2]. unfold tuple_lt, names_cmp. simpl.
  destruct (String.eqb_spec l1 l2) as [->|Hl].
  - rewrite string_compare_refl.
    destruct (String.eqb_spec f1 f2) as [->|Hf].
    + now rewrite string_compare_refl.
    + reflexivity.
  - unfold String.ltb.
    destruct (String.compare l1 l2) eqn:Hc; try reflexivity.
    apply String.compare_eq_iff in Hc. contradiction.
Qed.

Lemma tuple_ltb_names (a b : string * string) :
  tuple_ltb (names_key a) (names_key b) = true <-> names_cmp a b = Lt.
Proof.
  unfold tuple_ltb. rewrite tuple_lt_names.
  destruct (names_cmp a b); split; congruence.
Qed.

(** ** [sorted] on keys that compare without raising *)

Section SortedOk.
Context {K : Type} (lt : K -> K -> result bool) (ltb : K -> K -> bool)
        (good : K -> Prop).
Hypothesis lt_good : forall a b, good a -> good b -> lt a b = inr (ltb a b).
Hypothesis ltb_asym : forall a b, good a -> good b -> ltb a b = true -> ltb b a = false.
Hypothesis ltb_trans :
  forall a b c, good a -> good b -> good c ->
                ltb a b = true -> ltb b c = true -> ltb a c = true.

Lemma insert_keyed_ok (x : K * json) (l : list (K * json)) :
  (key_good good) x -> Forall (key_good good) l -> StronglySorted (key_le ltb) l ->
  exists l', insert_keyed lt x l = inr l'
             /\ Permutation (x :: l) l'
             /\ Forall (key_good good) l'
             /\ StronglySorted (key_le ltb) l'.
Proof.
  intros Hx. induction l as [|y r IH]; intros Hg Hs.
  - exists [x]. repeat split; auto; repeat constructor; auto.
  - inversion Hg as [|? ? Hy Hr]; subst.
    inversion Hs as [|? ? Hsr Hall]; subst.
    simpl. rewrite (lt_good _ _ Hx Hy). simpl.
    destruct (ltb (fst x) (fst y)) eqn:Hxy.
    + exists (x :: y :: r). repeat split; auto.
      constructor; [exact Hs|]. constructor.
      * now apply ltb_asym.
      * rewrite Forall_forall in Hall, Hr |- *. intros z Hz.
        unfold key_le. destruct (ltb (fst z) (fst x)) eqn:Hzx; [|reflexivity].
        rewrite <- (Hall z Hz). symmetry.
        apply (ltb_trans (fst z) (fst x) (fst y)); auto. now apply Hr.
    + destruct (IH Hr Hsr) as [r' [Hi [Hp [Hg' Hs']]]].
      rewrite Hi. simpl. exists (y :: r'). repeat split.
      * rewrite perm_swap. now constructor.
      * now constructor.
      * constructor; [exact Hs'|].
        apply (Permutation_Forall Hp). now constructor.
Qed.

Lemma sort_keyed_ok (l acc : list (K * json)) :
  Forall (key_good good) l -> Forall (key_good good) acc -> StronglySorted (key_le ltb) acc ->
  exists s, sort_keyed lt l acc = inr s
            /\ Permutation (l ++ acc) s
            /\ Forall (key_good good) s
            /\ StronglySorted (key_le ltb) s.
Proof.
  revert acc. induction l as [|x r IH]; intros acc Hl Hacc Hs.
  - exists acc. repeat split; auto.
  - inversion Hl as [|? ? Hx Hr]; subst.
    destruct (insert_keyed_ok x acc Hx Hacc Hs) as [acc' [Hi [Hp [Hg' Hs']]]].
    destruct (IH acc' Hr Hg' Hs') as [s [Hsort [Hp' [Hgs Hss]]]].
    simpl. rewrite Hi. simpl. exists s. repeat split; auto.
    rewrite <- Hp'. simpl. rewrite <- Hp. apply Permutation_middle.
Qed.

Lemma decorate_ok (key : json -> result K) (l : list json) :
  Forall (fun c => exists k, key c = inr k /\ good k) l ->
  exists d, decorate key l = inr d
            /\ map snd d = l
            /\ Forall (fun kc => good (fst kc) /\ key (snd kc) = inr (fst kc)) d.
Proof.
  induction l as [|c r IH]; intros H.
  - exists []. repeat split; auto.
  - inversion H as [|? ? [k [Hk Hg]] Hr]; subst.
    destruct (IH Hr) as [d [Hd [Hm Hf]]].
    exists ((k, c) :: d). simpl. rewrite Hk, Hd. simpl.
    repeat split; [now rewrite Hm|]. constructor; auto.
Qed.

(** [sorted] succeeds and returns a permutation whose keys never go
    down. *)
Lemma py_sorted_ok (key : json -> result K) (l : list json) :
  Forall (fun c => exists k, key c = inr k /\ good k) l ->
  exists s, py_sorted lt key l = inr (map snd s)
            /\ Permutation l (map snd s)
            /\ Forall (fun kc => good (fst kc) /\ key (snd kc) = inr (fst kc)) s
            /\ StronglySorted (key_le ltb) s.
Proof.
  intros H. destruct (decorate_ok key l H) as [d [Hd [Hm Hf]]].
  assert (Hgd : Forall (key_good good) d).
  { eapply Forall_impl; [exact Hf|]. now intros a [Ha _]. }
  destruct (sort_keyed_ok d [] Hgd) as [s [Hs [Hp [Hgs Hss]]]];
    [constructor|constructor|].
  rewrite app_nil_r in Hp.
  exists s. unfold py_sorted. rewrite Hd. simpl. rewrite Hs. simpl.
  repeat split; auto.
  - rewrite <- Hm. now apply Permutation_map.
  - now apply (Permutation_Forall Hp).
Qed.

End SortedOk.

Lemma StronglySorted_map {A B : Type} (R : A -> A -> Prop) (R' : B -> B -> Prop)
      (P : A -> Prop) (f : A -> B) (l : list A) :
  (forall a b, P a -> P b -> R a b -> R' (f a) (f b)) ->
  Forall P l -> StronglySorted R l -> StronglySorted R' (map f l).
Proof.
  intros HR. induction l as [|a r IH]; intros HP Hs; simpl; [constructor|].
  inversion HP as [|? ? Ha Hr]; subst.
  inversion Hs as [|? ? Hsr Hall]; subst.
  constructor; [now apply IH|].
  rewrite List.Forall_forall in Hall. rewrite List.Forall_forall in Hr.
  apply List.Forall_forall.
  intros b Hb. apply in_map_iff in Hb as [b' [<- Hb']].
  apply HR; auto.
Qed.

(** ** [sort_contacts] *)

Lemma tuple_lt_string_keyed (a b : json * json) :
  string_keyed a -> string_keyed b -> tuple_lt a b = inr (tuple_ltb a b).
Proof.
  intros [x ->] [y ->]. unfold tuple_ltb. rewrite tuple_lt_names.
  now destruct (names_cmp x y).
Qed.

Lemma tuple_ltb_asym (a b : json * json) :
  string_keyed a -> string_keyed b ->
  tuple_ltb a b = true -> tuple_ltb b a = false.
Proof.
  intros [x ->] [y ->] H. apply tuple_ltb_names in H.
  apply not_true_is_false. intros H'. apply tuple_ltb_names in H'.
  rewrite names_cmp_antisym, H in H'. discriminate.
Qed.

Lemma tuple_ltb_trans (a b c : json * json) :
  string_keyed a -> string_keyed b -> string_keyed c ->
  tuple_ltb a b = true -> tuple_ltb b c = true -> tuple_ltb a c = true.
Proof.
  intros [x ->] [y ->] [z ->]. rewrite !tuple_ltb_names.
  apply names_cmp_lt_trans.
Qed.

Lemma contact_key_names (c : json) (names : string * string) :
  contact_names c = Some names -> contact_key c = inr (names_key names).
Proof.
  destruct c as [| | | |l|m]; simpl; try discriminate.
  unfold contact_key. simpl.
  destruct (dict_get "last_name" m) as [[| | |ln| |]|]; try discriminate.
  destruct (dict_get "first_name" m) as [[| | |fn| |]|]; try discriminate.
  intros H. inversion H. reflexivity.
Qed.

Lemma contact_key_inv (c : json) (names : string * string) :
  contact_key c = inr (names_key names) -> contact_names c = Some names.
Proof.
  destruct names as [ln fn].
  destruct c as [| | | |l|m]; unfold contact_key; simpl; try discriminate.
  destruct (dict_get "last_name" m) as [v|]; simpl; [|discriminate].
  destruct (dict_get "first_name" m) as [v'|]; simpl; [|discriminate].
  unfold names_key. simpl. intros H. inversion H. reflexivity.
Qed.

(** C7, the claim as written fails: both contacts of this array have a
    [last_name] and a [first_name], but one last name is [null]; comparing
    the two keys raises [TypeError] and nothing is written. *)
Lemma sort_contacts_null_name_raises :
  let text := Reference.json_text
                "[{'last_name': null, 'first_name': 'Al'}, {'last_name': 'Hale', 'first_name': 'Bo'}]" in
  let w := Reference.world [("/data/contacts.json", text)] in
  Reference.loads text
  = inr (JArr [JObj [("last_name", JNull); ("first_name", JStr "Al")];
               JObj [("last_name", JStr "Hale"); ("first_name", JStr "Bo")]])
  /\ sort_contacts Reference.externals (JStr "/data/contacts.json")
                   (JStr "/data/contacts-sorted.json") w
     = (inl (TypeError
               "'<' not supported between instances of 'str' and 'NoneType'"),
        w).
Proof. split; vm_compute; reflexivity. Qed.

(** C7, amended: when [filename] holds a JSON array of contacts, each an object
    with string [last_name] and [first_name], [sort_contacts] succeeds and
    writes to [targetfile] the [indent=4] rendering of an array that holds
    the same contacts, in ascending order of (last name, first name). *)
Theorem sort_contacts_sorts
        (E : Externals) (filename targetfile text : string)
        (contacts : list json) (w : World) :
  files w !! filename = Some text ->
  json_loads E text = inr (JArr contacts) ->
  Forall is_contact contacts ->
  exists sorted_contacts,
    sort_contacts E (JStr filename) (JStr targetfile) w
    = (inr RetNone,
       mkWorld (<[targetfile := json_dump4 E (JArr sorted_contacts)]> (files w))
               (calls w))
    /\ Permutation contacts sorted_contacts
    /\ StronglySorted contact_le sorted_contacts.
Proof.
  intros Hf Hl Hc.
  assert (Hkeys : Forall (fun c => exists k, contact_key c = inr k /\ string_keyed k)
                         contacts).
  { eapply Forall_impl; [exact Hc|]. intros c [names Hn].
    exists (names_key names). split; [now apply contact_key_names|now exists names]. }
  destruct (py_sorted_ok tuple_lt tuple_ltb string_keyed
              tuple_lt_string_keyed tuple_ltb_asym tuple_ltb_trans
              contact_key contacts Hkeys) as [s [Hs [Hp [Hg Hss]]]].
  exists (map snd s). split; [|split; [exact Hp|]].
  - unfold sort_contacts, bind.
    rewrite (read_file_found _ _ _ Hf). unfold lift. rewrite Hl. simpl.
    rewrite Hs. reflexivity.
  - eapply StronglySorted_map; [|exact Hg|exact Hss].
    intros a b [[x Hx] Ha] [[y Hy] Hb] Hle. unfold key_le in Hle.
    rewrite Hx in Ha. rewrite Hy in Hb.
    exists x, y. split; [now apply contact_key_inv|].
    split; [now apply contact_key_inv|].
    apply names_le_cmp. rewrite Hx, Hy in Hle.
    intros Hlt. apply tuple_ltb_names in Hlt. congruence.
Qed.

Lemma sort_contacts_sorts_witness :
  exists sorted_contacts,
    sort_contacts Reference.externals (JStr "/data/contacts.json")
                  (JStr "/data/contacts-sorted.json")
                  (Reference.world
                     [("/data/contacts.json",
                       Reference.json_text
                         "[{'last_name': 'Moss', 'first_name': 'Ro'}, {'first_name': 'Al', 'last_name': 'Hale'}]")])
    = (inr RetNone,
       mkWorld (<["/data/contacts-sorted.json"
                  := Reference.dump4 (JArr sorted_contacts)]>
                  (list_to_map
                     [("/data/contacts.json",
                       Reference.json_text
                         "[{'last_name': 'Moss', 'first_name': 'Ro'}, {'first_name': 'Al', 'last_name': 'Hale'}]")]))
               [])
    /\ Permutation
         [JObj [("last_name", JStr "Moss"); ("first_name", JStr "Ro")];
          JObj [("first_name", JStr "Al"); ("last_name", JStr "Hale")]]
         sorted_contacts
    /\ StronglySorted contact_le sorted_contacts.
Proof.
  apply (sort_contacts_sorts Reference.externals
           "/data/contacts.json" "/data/contacts-sorted.json"
           (Reference.json_text
              "[{'last_name': 'Moss', 'first_name': 'Ro'}, {'first_name': 'Al', 'last_name': 'Hale'}]")).
  - reflexivity.
  - vm_compute. reflexivity.
  - repeat constructor; eexists; reflexivity.
Defined.

(** ** [count_weekday_dates] *)

Lemma count_matching_agree (E1 E2 : Externals) (lines : list string)
      (weekday : json) :
  Forall (fun line => parse_weekday E2 line = parse_weekday E1 line) lines ->
  count_matching E2 lines weekday = count_matching E1 lines weekday.
Proof.
  induction 1 as [|line rest Hline _ IH]; simpl; [reflexivity|].
  now rewrite Hline, IH.
Qed.

(** C8, the claim as written fails: the line [2026-11] names no day, and
    the parser takes the day from the current date.  A run on the 4th
    counts the line as a Wednesday and writes 1; a run on the 5th, with
    the same arguments on the same unmodified file, writes 0. *)
Lemma count_weekday_dates_depends_on_the_day :
  let dates := String.concat Reference.newline ["2026-11"; ""] in
  let w := Reference.world [("/data/dates.txt", dates)] in
  let run1 := count_weekday_dates (Reference.on_day 4) (JStr "/data/dates.txt")
                (JStr "/data/dates-wednesdays.txt") (JInt 3) w in
  let run2 := count_weekday_dates (Reference.on_day 5) (JStr "/data/dates.txt")
                (JStr "/data/dates-wednesdays.txt") (JInt 3) (snd run1) in
  fst run1 = inr RetNone
  /\ files (snd run1) !! "/data/dates.txt" = files w !! "/data/dates.txt"
  /\ files (snd run1) !! "/data/dates-wednesdays.txt" = Some "1"
  /\ fst run2 = inr RetNone
  /\ files (snd run2) !! "/data/dates.txt" = files w !! "/data/dates.txt"
  /\ files (snd run2) !! "/data/dates-wednesdays.txt" = Some "0".
Proof. repeat split; vm_compute; reflexivity. Qed.

(** C8, amended: two runs of [count_weekday_dates] with the same
    arguments, the second on an input file the first run left as it was,
    in which every line of the file parses to the same weekday (or raises
    the same error) both times, as it does when both runs fall on the same
    day or every line spells out year, month and day.  The second run ends
    like the first one (same value or same exception) and changes nothing.
    When the count succeeds the output file holds its decimal text after
    each run, with nothing accumulated; when the input is missing or the
    count raises, the first run has written nothing. *)
Theorem count_weekday_dates_idempotent
        (E1 E2 : Externals) (filename targetfile : string) (weekday : json)
        (w w1 : World) (r1 : result pyret) :
  Forall (fun line => parse_weekday E2 line = parse_weekday E1 line)
         (input_lines w filename) ->
  count_weekday_dates E1 (JStr filename) (JStr targetfile) weekday w = (r1, w1) ->
  files w1 !! filename = files w !! filename ->
  count_weekday_dates E2 (JStr filename) (JStr targetfile) weekday w1 = (r1, w1)
  /\ match files w !! filename with
     | None => r1 = inl (FileNotFoundError filename) /\ w1 = w
     | Some text =>
         match count_matching E1 (file_lines text) weekday with
         | inr n => r1 = inr RetNone
                    /\ files w1 !! targetfile = Some (str_of_int n)
         | inl e => r1 = inl e /\ w1 = w
         end
     end.
Proof.
  unfold count_weekday_dates, input_lines, bind. intros Hagree Hrun Hsame.
  destruct (files w !! filename) as [text|] eqn:Hf.
  - rewrite (read_file_found _ _ _ Hf) in Hrun.
    rewrite (read_file_found _ _ _ Hsame).
    unfold lift in *. rewrite (count_matching_agree E1 E2 _ _ Hagree).
    destruct (count_matching E1 (file_lines text) weekday) as [e|n] eqn:Hn.
    + inversion Hrun; subst. auto.
    + rewrite write_file_str in Hrun. inversion Hrun; subst.
      rewrite write_file_str. simpl. rewrite insert_insert_eq.
      split; [reflexivity|]. split; [reflexivity|]. apply lookup_insert_eq.
  - rewrite (read_file_missing _ _ Hf) in Hrun. inversion Hrun; subst.
    rewrite (read_file_missing _ _ Hf). auto.
Qed.

Lemma count_weekday_dates_idempotent_witness :
  let dates := String.concat Reference.newline
                 ["2026-11-04"; "2026-11-05"; "2026-10-28"; ""] in
  let w1 := mkWorld (<["/data/dates-wednesdays.txt" := "2"]>
                       (list_to_map [("/data/dates.txt", dates)])) [] in
  count_weekday_dates (Reference.on_day 5) (JStr "/data/dates.txt")
                      (JStr "/data/dates-wednesdays.txt") (JInt 3) w1
  = (inr RetNone, w1)
  /\ files w1 !! "/data/dates-wednesdays.txt" = Some "2".
Proof.
  intros dates w1.
  destruct (count_weekday_dates_idempotent
              (Reference.on_day 4) (Reference.on_day 5)
              "/data/dates.txt" "/data/dates-wednesdays.txt" (JInt 3)
              (Reference.world [("/data/dates.txt", dates)]) w1 (inr RetNone))
    as [Hrun Hcount].
  - unfold input_lines.
    replace (files (Reference.world [("/data/dates.txt", dates)])
               !! "/data/dates.txt") with (Some dates)
      by (vm_compute; reflexivity).
    repeat constructor.
  - vm_compute. reflexivity.
  - reflexivity.
  - split; [exact Hrun|]. vm_compute in Hcount. exact (proj2 Hcount).
Defined.

(** ** [extract_email_sender] *)

Lemma take_prefix (pre s : string) :
  String.eqb pre (PyStr.take (String.length pre) s) = PyStr.startswith s pre.
Proof.
  unfold PyStr.startswith. revert s.
  induction pre as [|a pre IH]; intros [|b s]; simpl; try reflexivity.
  destruct (Ascii.eqb_spec a b) as [Heq|Hne], (Ascii.ascii_dec a b) as [Heq'|Hne'];
    simpl; try congruence; auto.
Qed.

Lemma take4_From (line : string) :
  String.eqb "From" (PyStr.take 4 line) = PyStr.startswith line "From".
Proof. exact (take_prefix "From" line). Qed.

Lemma find_sender_fallback (email_content : list string) (sender_email : string) :
  Forall (fun line => PyStr.startswith line "From" = false) email_content ->
  find_sender email_content sender_email = sender_email.
Proof.
  induction 1 as [|line rest Hline _ IH]; [reflexivity|].
  cbn [find_sender]. now rewrite take4_From, Hline.
Qed.

(** C10: when the input file exists and none of its lines begins with the
    four characters [From], [extract_email_sender] writes the fixed
    address [sujay@gmail.com] to the output file and returns normally. *)
Theorem extract_email_sender_fallback
        (filename output_file text : string) (w : World) :
  files w !! filename = Some text ->
  Forall (fun line => PyStr.startswith line "From" = false) (file_lines text) ->
  extract_email_sender (JStr filename) (JStr output_file) w
  = (inr RetNone,
     mkWorld (<[output_file := "sujay@gmail.com"]> (files w)) (calls w)).
Proof.
  intros Hf Hno. unfold extract_email_sender, bind.
  rewrite (read_file_found _ _ _ Hf).
  now rewrite (find_sender_fallback _ _ Hno).
Qed.

Lemma extract_email_sender_fallback_witness :
  let text := String.concat Reference.newline
                ["To: dana@example.org"; "Subject: From here on"; " From: x@y.z"] in
  extract_email_sender (JStr "/data/email.txt") (JStr "/data/email-sender.txt")
                       (Reference.world [("/data/email.txt", text)])
  = (inr RetNone,
     mkWorld (<["/data/email-sender.txt" := "sujay@gmail.com"]>
                (list_to_map [("/data/email.txt", text)])) []).
Proof.
  intros text.
  apply (extract_email_sender_fallback "/data/email.txt" "/data/email-sender.txt" text).
  - reflexivity.
  - repeat constructor.
Defined.

(** * Further properties of the handlers *)

(** Unfolds the monad under a handler and splits on every test it makes. *)
Ltac run_handler :=
  repeat (progress
            (unfold bind, lift, ret, raise, write_file, read_file, run_query,
               other, validate_data_path_dyn, open_path, set_files, rbind in *;
             repeat (case_match; simplify_eq/=); simplify_eq/=)).

(** ** Confinement of the guarded writers *)

Section Confinement.
Context (E : Externals).

Lemma download_url_content_confined (url save_path : json) :
  writes_only_guarded save_path (download_url_content E url save_path).
Proof.
  intros w r w' H. unfold download_url_content in H. run_handler; auto.
  right. eexists _, _. split; [reflexivity|]. split; [|reflexivity].
  now apply negb_false_iff.
Qed.

Lemma convert_markdown_to_html_confined (md_path output_path : json) :
  writes_only_guarded output_path (convert_markdown_to_html E md_path output_path).
Proof.
  intros w r w' H. unfold convert_markdown_to_html in H. run_handler; auto.
  right. eexists _, _. split; [reflexivity|]. split; [|reflexivity].
  now apply negb_false_iff.
Qed.

Lemma process_image_confined (image_path output_path resize : json) :
  writes_only_guarded output_path (process_image E image_path output_path resize).
Proof.
  intros w r w' H. unfold process_image in H. run_handler; auto;
    right; eexists _, _; (split; [reflexivity|]); (split; [|reflexivity]);
    now apply negb_false_iff.
Qed.

End Confinement.

(** X3: [download_url_content], [process_image] and
    [convert_markdown_to_html] open at most one path for writing, whatever
    their arguments and however they end: the string given as [save_path]
    or [output_path], and only when that string begins with [/data].
    This is about the path string handed to [open]; where a [..] segment
    or a link in it leads is not the guard's concern nor this
    statement's. *)
Theorem guarded_writers_stay_under_data
        (E : Externals) (a b c : json) :
  writes_only_guarded b (download_url_content E a b)
  /\ writes_only_guarded b (process_image E a b c)
  /\ writes_only_guarded b (convert_markdown_to_html E a b).
Proof.
  split; [apply download_url_content_confined|].
  split; [apply process_image_confined|apply convert_markdown_to_html_confined].
Qed.

Lemma guarded_writers_stay_under_data_witness :
  let w := Reference.world [("/etc/passwd", "root")] in
  let w' := snd (download_url_content Reference.externals (JStr "http://x")
                   (JStr "/data/page.html") w) in
  w' = w
  \/ exists p text,
       JStr "/data/page.html" = JStr p /\ validate_data_path p = true
       /\ w' = mkWorld (<[p := text]> (files w)) (calls w).
Proof.
  intros w w'.
  destruct (guarded_writers_stay_under_data Reference.externals
              (JStr "http://x") (JStr "/data/page.html") JNull) as [H _].
  apply (H w (inr RetNone)). vm_compute. reflexivity.
Defined.

(** ** One handler per request *)

Section OneHandler.
Context (E : Externals).

Lemma route_bodies_keep_calls (h : handler) (args : list json) :
  In h (routes E) -> keeps_calls (h_body h args).
Proof.
  intros Hin w r w' H. simpl in Hin.
  repeat (destruct Hin as [<-|Hin];
          [simpl in H;
           unfold download_url_content, execute_sql_query, scrape_web_content,
             process_image, convert_markdown_to_html, count_weekday_dates,
             sort_contacts, extract_email_sender in H;
           run_handler; reflexivity|]).
  destruct Hin.
Qed.

Lemma call_calls (h : handler) (arguments : string) (w w' : World) (r : result pyret) :
  In h (routes E) -> call E h arguments w = (r, w') ->
  calls w' = calls w \/ calls w' = h_name h :: calls w.
Proof.
  intros Hin H. unfold call in H.
  unfold bind at 1 in H. unfold lift at 1 in H.
  destruct (json_loads E arguments) as [e|v]; [left; congruence|].
  unfold bind at 1 in H. unfold lift at 1 in H.
  destruct (as_mapping (qualified_name (h_name h)) v) as [e|kwargs];
    [left; congruence|].
  unfold bind at 1 in H. unfold lift at 1 in H.
  destruct (bind_kwargs (h_name h) (h_params h) kwargs) as [e|args];
    [left; congruence|].
  unfold bind, log_call in H. right.
  now rewrite (route_bodies_keep_calls h args Hin _ _ _ H).
Qed.

End OneHandler.

(** X5: at most one of the sixteen [if] lines of [run_task] fires for a
    request, and only the line of a name the registry holds, the one the
    classifier chose: after [run_task] the log of the calls made by the
    dispatcher is the old one, or the old one with that name in front.
    Calls that a handler makes itself, such as the guard called by a
    guarded handler, are not dispatcher calls and are not counted. *)
Theorem run_task_runs_at_most_one_handler
        (E : Externals) (task : string) (w w' : World) (r : response) :
  run_task E task w = (r, w') ->
  calls w' = calls w
  \/ exists task_code arguments,
       get_completions E task = inr (task_code, arguments)
       /\ In task_code registry_names
       /\ calls w' = task_code :: calls w.
Proof.
  intros H. destruct (get_completions E task) as [e|[task_code arguments]] eqn:Hc.
  - unfold run_task in H. rewrite Hc in H. left. congruence.
  - destruct (in_dec string_dec task_code registry_names) as [Hin|Hout].
    + destruct (registered_route E task_code Hin) as [h [Hh Hn]].
      rewrite (run_task_registered E task task_code arguments h w Hc Hh Hn) in H.
      destruct (call E h arguments w) as [res w1] eqn:Hcall.
      assert (w' = w1) by (destruct res; congruence). subst w1.
      destruct (call_calls E h arguments w w' res Hh Hcall) as [Hk|Hk];
        [now left|].
      right. exists task_code, arguments. rewrite Hk, Hn. auto.
    + rewrite (run_task_unregistered E task task_code arguments w Hc Hout) in H.
      left. congruence.
Qed.

Lemma run_task_runs_at_most_one_handler_witness :
  let w := Reference.world [("/data/contacts.json", "[]")] in
  calls (snd (run_task Reference.externals "sort_contacts {}" w)) = calls w
  \/ exists task_code arguments,
       get_completions Reference.externals "sort_contacts {}"
       = inr (task_code, arguments)
       /\ In task_code registry_names
       /\ calls (snd (run_task Reference.externals "sort_contacts {}" w))
          = task_code :: calls w.
Proof.
  intros w.
  apply (run_task_runs_at_most_one_handler Reference.externals
           "sort_contacts {}" w _
           (fst (run_task Reference.externals "sort_contacts {}" w))).
  vm_compute. reflexivity.
Defined.

(** ** [scrape_web_content] *)



(** ** The guard as a task *)

(** X6: dispatched as a task, [validate_data_path] gives the same answer
    for every path: its verdict is dropped, no file is touched and
    [run_task] reports success whether the path is under [/data] or not. *)
Theorem validate_task_verdict_is_dropped
        (E : Externals) (task arguments filepath : string) (w : World) :
  get_completions E task = inr ("validate_data_path", arguments) ->
  json_loads E arguments = inr (JObj [("filepath", JStr filepath)]) ->
  run_task E task w
  = (Message (success_message "validate_data_path" task),
     entered "validate_data_path" w).
Proof.
  intros Hc Hl.
  rewrite (run_task_registered E task "validate_data_path" arguments
             (mkHandler "validate_data_path" [required "filepath"]
                (fun a => let* b := lift (validate_data_path_dyn (arg 0 a)) in
                          ret (RetBool b))) w Hc);
    [|simpl; do 10 right; left; reflexivity|reflexivity].
  rewrite (call_enters_body E _ arguments [("filepath", JStr filepath)]
             [JStr filepath] w Hl); reflexivity.
Qed.

Lemma validate_task_verdict_is_dropped_witness :
  let task := Reference.json_text "validate_data_path {'filepath': '/etc/passwd'}" in
  run_task Reference.externals task (Reference.world [])
  = (Message (success_message "validate_data_path" task),
     entered "validate_data_path" (Reference.world [])).
Proof.
  apply (validate_task_verdict_is_dropped Reference.externals
           (Reference.json_text "validate_data_path {'filepath': '/etc/passwd'}")
           (Reference.json_text "{'filepath': '/etc/passwd'}") "/etc/passwd").
  - reflexivity.
  - vm_compute. reflexivity.
Defined.

(** ** Keywords the handler does not declare *)

Lemma unexpected_keyword_found (params : list param) (kwargs : list (string * json))
      (k : string) :
  In k (map fst kwargs) -> has_param params k = false ->
  exists k', unexpected_keyword params kwargs = Some k'
             /\ In k' (map fst kwargs) /\ has_param params k' = false.
Proof.
  induction kwargs as [|[k0 v0] rest IH]; intros Hin Hk; [destruct Hin|].
  simpl. destruct (has_param params k0) eqn:H0.
  - destruct Hin as [Heq|Hin]; [simpl in Heq; congruence|].
    destruct (IH Hin Hk) as [k' [Hu [Hin' Hk']]].
    exists k'. simpl. auto.
  - exists k0. simpl. auto.
Qed.

Lemma unexpected_keyword_none (params : list param) (kwargs : list (string * json)) :
  forallb (fun kv => has_param params (fst kv)) kwargs = true ->
  unexpected_keyword params kwargs = None.
Proof.
  induction kwargs as [|[k0 v0] rest IH]; simpl; [reflexivity|].
  intros H. apply andb_true_iff in H as [H0 Hr]. simpl in H0.
  rewrite H0. now apply IH.
Qed.

(** X7: an argument object with a key the matched handler does not
    declare is refused whole: [run_task] answers 400 with Python's
    [unexpected keyword argument] message about such a key, no handler
    runs and nothing changes, even when every declared parameter is
    supplied. *)
Theorem undeclared_keyword_rejected
        (E : Externals) (task task_code arguments : string) (h : handler)
        (kwargs : list (string * json)) (k : string) (w : World) :
  get_completions E task = inr (task_code, arguments) ->
  In h (routes E) -> h_name h = task_code ->
  json_loads E arguments = inr (JObj kwargs) ->
  In k (map fst kwargs) -> has_param (h_params h) k = false ->
  exists k',
    In k' (map fst kwargs) /\ has_param (h_params h) k' = false
    /\ run_task E task w
       = (HTTPException 400
            (task_code ++ "() got an unexpected keyword argument " ++ PyStr.repr k'),
          w).
Proof.
  intros Hc Hin Hn Hl Hk Hp.
  destruct (unexpected_keyword_found (h_params h) kwargs k Hk Hp)
    as [k' [Hu [Hin' Hp']]].
  exists k'. split; [exact Hin'|]. split; [exact Hp'|].
  rewrite (run_task_registered E task task_code arguments h w Hc Hin Hn).
  rewrite (call_binding_error E h arguments kwargs
             (TypeError (task_code ++ "() got an unexpected keyword argument "
                         ++ PyStr.repr k')) w Hl); [reflexivity|].
  unfold bind_kwargs. rewrite Hu, Hn. reflexivity.
Qed.

Lemma undeclared_keyword_rejected_witness :
  let task := Reference.json_text
                "sort_contacts {'filename': '/data/c.json', 'order': 'desc'}" in
  exists k',
    In k' ["filename"; "order"]
    /\ has_param [optional "filename" (JStr "/data/contacts.json");
                  optional "targetfile" (JStr "/data/contacts-sorted.json")] k' = false
    /\ run_task Reference.externals task (Reference.world [])
       = (HTTPException 400
            ("sort_contacts" ++ "() got an unexpected keyword argument " ++ PyStr.repr k'),
          Reference.world []).
Proof.
  apply (undeclared_keyword_rejected Reference.externals
           (Reference.json_text
              "sort_contacts {'filename': '/data/c.json', 'order': 'desc'}")
           "sort_contacts"
           (Reference.json_text "{'filename': '/data/c.json', 'order': 'desc'}")
           (mkHandler "sort_contacts"
              [optional "filename" (JStr "/data/contacts.json");
               optional "targetfile" (JStr "/data/contacts-sorted.json")]
              (fun a => sort_contacts Reference.externals (arg 0 a) (arg 1 a)))
           [("filename", JStr "/data/c.json"); ("order", JStr "desc")]
           "order" (Reference.world [])).
  - reflexivity.
  - simpl. do 3 right. left. reflexivity.
  - reflexivity.
  - vm_compute. reflexivity.
  - simpl. auto.
  - reflexivity.
Defined.

(** X8: the registry entry of [generate_data] asks for [filename], which
    the function does not accept: every [generate_data] request whose
    argument object supplies [filename] is answered with 400 and an
    [unexpected keyword argument] message, and the script is not run. *)
Theorem generate_data_with_filename_rejected
        (E : Externals) (task arguments : string)
        (kwargs : list (string * json)) (w : World) :
  get_completions E task = inr ("generate_data", arguments) ->
  json_loads E arguments = inr (JObj kwargs) ->
  In "filename" (map fst kwargs) ->
  In "filename" (registry_required "generate_data")
  /\ exists k',
       run_task E task w
       = (HTTPException 400
            ("generate_data() got an unexpected keyword argument " ++ PyStr.repr k'),
          w).
Proof.
  intros Hc Hl Hk. split; [simpl; auto|].
  destruct (unexpected_keyword_found
              [optional "email" (JStr "22f1000913@ds.study.iitm.ac.in")]
              kwargs "filename" Hk eq_refl) as [k' [Hu _]].
  exists k'.
  rewrite (run_task_registered E task "generate_data" arguments
             (mkHandler "generate_data"
                [optional "email" (JStr "22f1000913@ds.study.iitm.ac.in")]
                (other E "generate_data")) w Hc);
    [|simpl; left; reflexivity|reflexivity].
  rewrite (call_binding_error E _ arguments kwargs
             (TypeError ("generate_data() got an unexpected keyword argument "
                         ++ PyStr.repr k')) w Hl); [reflexivity|].
  unfold bind_kwargs. simpl h_params. now rewrite Hu.
Qed.

Lemma generate_data_with_filename_rejected_witness :
  let task := Reference.json_text
                "generate_data {'email': 'a@b.c', 'filename': 'x', 'targetfile': 'y'}" in
  In "filename" (registry_required "generate_data")
  /\ exists k',
       run_task Reference.externals task (Reference.world [])
       = (HTTPException 400
            ("generate_data() got an unexpected keyword argument " ++ PyStr.repr k'),
          Reference.world []).
Proof.
  apply (generate_data_with_filename_rejected Reference.externals
           (Reference.json_text
              "generate_data {'email': 'a@b.c', 'filename': 'x', 'targetfile': 'y'}")
           (Reference.json_text "{'email': 'a@b.c', 'filename': 'x', 'targetfile': 'y'}")
           [("email", JStr "a@b.c"); ("filename", JStr "x"); ("targetfile", JStr "y")]).
  - reflexivity.
  - vm_compute. reflexivity.
  - simpl. auto.
Defined.

(** ** The registry against the signatures *)

Lemma existsb_eqb_In (k : string) (l : list string) :
  existsb (String.eqb k) l = true <-> In k l.
Proof.
  rewrite existsb_exists. split.
  - intros [x [Hx Heq]]. apply String.eqb_eq in Heq. now subst.
  - intros H. exists k. split; [exact H|apply String.eqb_refl].
Qed.

Lemma dict_get_In {A : Type} (k : string) (d : list (string * A)) (v : A) :
  dict_get k d = Some v -> In (k, v) d.
Proof.
  induction d as [|[k0 v0] rest IH]; simpl; [discriminate|].
  destruct (String.eqb_spec k k0) as [->|Hne].
  - intros H. inversion H. now left.
  - intros H. right. now apply IH.
Qed.

Lemma missing_params_supplied (params : list param) (kwargs : list (string * json)) :
  (forall p, In (p, None) params -> dict_get p kwargs <> None) ->
  missing_params params kwargs = [].
Proof.
  induction params as [|[name default] rest IH]; intros H; [reflexivity|].
  simpl. destruct default as [d|].
  - apply IH. intros p Hp. apply H. now right.
  - destruct (dict_get name kwargs) eqn:Hg.
    + apply IH. intros p Hp. apply H. now right.
    + exfalso. apply (H name); [now left|exact Hg].
Qed.

Lemma compatible_conforming_binds (fname : string) (t : TaskSpec) (h : handler)
      (kwargs : list (string * json)) :
  compatible t h = true -> conforms t kwargs = true ->
  bind_kwargs fname (h_params h) kwargs
  = inr (map (bound_value kwargs) (h_params h)).
Proof.
  unfold compatible, conforms. intros Hc Hk.
  apply andb_true_iff in Hc as [Hprops Hreq].
  apply andb_true_iff in Hk as [Hkeys Hsup].
  rewrite forallb_forall in Hprops, Hreq, Hkeys, Hsup.
  unfold bind_kwargs.
  rewrite unexpected_keyword_none.
  - rewrite missing_params_supplied; [reflexivity|].
    intros p Hp Hnone. specialize (Hreq (p, None) Hp). simpl in Hreq.
    apply existsb_eqb_In in Hreq. specialize (Hsup p Hreq).
    now rewrite Hnone in Hsup.
  - apply forallb_forall. intros kv Hkv.
    apply Hprops. apply existsb_eqb_In. now apply Hkeys.
Qed.

Lemma registry_compatible (E : Externals) (t : TaskSpec) (h : handler) :
  In t function_definitions_llm -> In h (routes E) ->
  h_name h = ts_name t -> ts_name t <> "generate_data" ->
  compatible t h = true.
Proof.
  intros Ht Hh Hn Hg. simpl in Ht.
  repeat (destruct Ht as [<-|Ht];
          [simpl in Hh;
           repeat (destruct Hh as [<-|Hh]; [try discriminate Hn; try reflexivity|]);
           try destruct Hh; try (exfalso; apply Hg; reflexivity)|]).
  destruct Ht.
Qed.

Lemma generate_data_unsatisfiable (t : TaskSpec) (kwargs : list (string * json)) :
  In t function_definitions_llm -> ts_name t = "generate_data" ->
  conforms t kwargs = false.
Proof.
  intros Ht Hn. simpl in Ht.
  repeat (destruct Ht as [<-|Ht]; [try discriminate Hn|]); [|destruct Ht].
  unfold conforms. simpl ts_required. simpl ts_properties.
  apply not_true_is_false. intros H.
  apply andb_true_iff in H as [Hkeys Hsup].
  rewrite forallb_forall in Hkeys.
  simpl in Hsup. destruct (dict_get "filename" kwargs) as [v|] eqn:Hg;
    [|discriminate].
  specialize (Hkeys _ (dict_get_In _ _ _ Hg)). discriminate.
Qed.

(** X9: the registry and the functions agree for fifteen of the sixteen
    tasks.  For every task but [generate_data], an argument object that
    follows the task's registry entry (its keys are declared properties,
    the [required] names are supplied) always binds, so the request
    reaches the body of the handler.  No argument object can follow the
    entry of [generate_data]: it requires names it does not declare. *)
Theorem conforming_arguments_bind
        (E : Externals) (t : TaskSpec) (h : handler) (task arguments : string)
        (kwargs : list (string * json)) (w : World) :
  In t function_definitions_llm -> In h (routes E) -> h_name h = ts_name t ->
  get_completions E task = inr (ts_name t, arguments) ->
  json_loads E arguments = inr (JObj kwargs) ->
  (ts_name t <> "generate_data" -> conforms t kwargs = true ->
   exists args,
     bind_kwargs (ts_name t) (h_params h) kwargs = inr args
     /\ run_task E task w
        = answer (ts_name t) task (h_body h args (entered (ts_name t) w)))
  /\ (ts_name t = "generate_data" -> conforms t kwargs = false).
Proof.
  intros Ht Hh Hn Hc Hl. split.
  - intros Hg Hk.
    pose proof (registry_compatible E t h Ht Hh Hn Hg) as Hcompat.
    pose proof (compatible_conforming_binds (ts_name t) t h kwargs Hcompat Hk) as Hb.
    eexists. split; [exact Hb|].
    rewrite (run_task_registered E task (ts_name t) arguments h w Hc Hh Hn).
    rewrite <- Hn in Hb.
    rewrite (call_enters_body E h arguments kwargs _ w Hl Hb).
    rewrite Hn. unfold answer, entered.
    now destruct (h_body h _ _) as [[e|r] w'].
  - intros Hg. now apply generate_data_unsatisfiable.
Qed.

Lemma conforming_arguments_bind_witness :
  let task := Reference.json_text
                "download_url_content {'save_path': '/data/p.html', 'url': 'http://x'}" in
  let h := mkHandler "download_url_content" [required "url"; required "save_path"]
             (fun a => download_url_content Reference.externals (arg 0 a) (arg 1 a)) in
  exists args,
    bind_kwargs "download_url_content" (h_params h)
      [("save_path", JStr "/data/p.html"); ("url", JStr "http://x")] = inr args
    /\ run_task Reference.externals task (Reference.world [])
       = answer "download_url_content" task
           (h_body h args (entered "download_url_content" (Reference.world []))).
Proof.
  intros task h.
  destruct (conforming_arguments_bind Reference.externals
              (mkTask "download_url_content"
                 [("url", str_prop "https?://.*"); ("save_path", str_prop ".*/.*")]
                 ["url"; "save_path"])
              h task
              (Reference.json_text "{'save_path': '/data/p.html', 'url': 'http://x'}")
              [("save_path", JStr "/data/p.html"); ("url", JStr "http://x")]
              (Reference.world [])) as [H _].
  - simpl. do 11 right. left. reflexivity.
  - simpl. do 11 right. left. reflexivity.
  - reflexivity.
  - reflexivity.
  - vm_compute. reflexivity.
  - apply H; [discriminate|reflexivity].
Defined.

(** ** [count_weekday_dates]: what is counted *)

Section Counting.
Context (E : Externals).

Lemma count_matching_filter (lines : list string) (weekdays : list Z)
      (weekday : json) (k : Z) :
  Forall2 (fun line wd => parse_weekday E line = inr wd) lines weekdays ->
  py_int weekday = inr k ->
  count_matching E lines weekday
  = inr (Z.of_nat (List.length (List.filter (fun wd => wd =? k - 1) weekdays))).
Proof.
  intros Hp Hk. induction Hp as [|line wd lines weekdays Hline _ IH];
    [reflexivity|].
  cbn [count_matching List.filter]. rewrite Hline. unfold rbind at 1.
  rewrite Hk. unfold rbind at 1. rewrite IH. unfold rbind.
  destruct (wd =? k - 1); cbn [List.length]; f_equal; lia.
Qed.

Lemma count_matching_bad_line (lines : list string) (weekday : json)
      (line : string) (e : exn) :
  In line lines -> parse_weekday E line = inl e ->
  exists e', count_matching E lines weekday = inl e'.
Proof.
  intros Hin He. induction lines as [|l rest IH]; [destruct Hin|].
  cbn [count_matching]. destruct Hin as [->|Hin].
  - rewrite He. eauto.
  - destruct (parse_weekday E l) as [e0|wd]; [eauto|]. unfold rbind at 1.
    destruct (py_int weekday) as [e1|k]; [eauto|]. unfold rbind at 1.
    destruct (IH Hin) as [e' ->]. eauto.
Qed.

End Counting.

(** X10: when every line of the input parses as a date and [weekday]
    converts to the integer [k], [count_weekday_dates] writes the decimal
    number of lines whose [weekday()] is [k - 1] (Monday is 1, Sunday 7) and
    changes no other file. *)
Theorem count_weekday_dates_counts
        (E : Externals) (filename targetfile text : string) (weekday : json)
        (weekdays : list Z) (k : Z) (w : World) :
  files w !! filename = Some text ->
  Forall2 (fun line wd => parse_weekday E line = inr wd) (file_lines text) weekdays ->
  py_int weekday = inr k ->
  count_weekday_dates E (JStr filename) (JStr targetfile) weekday w
  = (inr RetNone,
     mkWorld (<[targetfile :=
                  str_of_int (Z.of_nat (List.length
                                          (List.filter (fun wd => wd =? k - 1) weekdays)))]>
                (files w))
             (calls w)).
Proof.
  intros Hf Hp Hk. unfold count_weekday_dates, bind.
  rewrite (read_file_found _ _ _ Hf). unfold lift.
  rewrite (count_matching_filter E _ weekdays weekday k Hp Hk).
  reflexivity.
Qed.

Lemma count_weekday_dates_counts_witness :
  let dates := String.concat Reference.newline
                 ["2026-11-04"; "2026-11-05"; "2026-10-28"; ""] in
  count_weekday_dates Reference.externals (JStr "/data/dates.txt")
                      (JStr "/data/out.txt") (JStr "3")
                      (Reference.world [("/data/dates.txt", dates)])
  = (inr RetNone,
     mkWorld (<["/data/out.txt" :=
                  str_of_int (Z.of_nat (List.length
                                          (List.filter (fun wd => wd =? 3 - 1) [2; 3; 2])))]>
                (list_to_map [("/data/dates.txt", dates)])) []).
Proof.
  intros dates.
  apply (count_weekday_dates_counts Reference.externals
           "/data/dates.txt" "/data/out.txt" dates (JStr "3") [2; 3; 2] 3).
  - reflexivity.
  - repeat constructor.
  - reflexivity.
Defined.

(** X11: on an empty input file [count_weekday_dates] writes [0] and never
    looks at [weekday]: a value that [int()] would refuse is accepted. *)
Theorem count_weekday_dates_empty_file
        (E : Externals) (filename targetfile : string) (weekday : json) (w : World) :
  files w !! filename = Some EmptyString ->
  count_weekday_dates E (JStr filename) (JStr targetfile) weekday w
  = (inr RetNone, mkWorld (<[targetfile := "0"]> (files w)) (calls w)).
Proof.
  intros Hf. unfold count_weekday_dates, bind.
  rewrite (read_file_found _ _ _ Hf). reflexivity.
Qed.

Lemma count_weekday_dates_empty_file_witness :
  py_int (JStr "Wednesday")
  = inl (ValueError "invalid literal for int() with base 10: 'Wednesday'")
  /\ count_weekday_dates Reference.externals (JStr "/data/dates.txt")
       (JStr "/data/out.txt") (JStr "Wednesday")
       (Reference.world [("/data/dates.txt", "")])
     = (inr RetNone,
        mkWorld (<["/data/out.txt" := "0"]> (list_to_map [("/data/dates.txt", "")])) []).
Proof.
  split; [reflexivity|].
  apply (count_weekday_dates_empty_file Reference.externals
           "/data/dates.txt" "/data/out.txt" (JStr "Wednesday")).
  reflexivity.
Defined.

(** X12: one line that does not parse as a date (a blank line, say) makes
    [count_weekday_dates] raise, and the output file is neither created
    nor changed. *)
Theorem count_weekday_dates_bad_line
        (E : Externals) (filename : string) (targetfile weekday : json)
        (text line : string) (e : exn) (w : World) :
  files w !! filename = Some text ->
  In line (file_lines text) -> parse_weekday E line = inl e ->
  exists e', count_weekday_dates E (JStr filename) targetfile weekday w = (inl e', w).
Proof.
  intros Hf Hin He. unfold count_weekday_dates, bind.
  rewrite (read_file_found _ _ _ Hf). unfold lift.
  destruct (count_matching_bad_line E _ weekday line e Hin He) as [e' ->].
  eauto.
Qed.

Lemma count_weekday_dates_bad_line_witness :
  let dates := String.concat Reference.newline ["2026-11-04"; ""; "2026-10-28"] in
  exists e',
    count_weekday_dates Reference.externals (JStr "/data/dates.txt")
                        (JStr "/data/out.txt") (JInt 3)
                        (Reference.world [("/data/dates.txt", dates)])
    = (inl e', Reference.world [("/data/dates.txt", dates)]).
Proof.
  intros dates.
  apply (count_weekday_dates_bad_line Reference.externals "/data/dates.txt"
           (JStr "/data/out.txt") (JInt 3) dates Reference.newline
           (Exn "ParserError" ("Unknown string format: " ++ Reference.newline))).
  - reflexivity.
  - simpl. auto.
  - reflexivity.
Defined.

(** X13: [weekday] is not checked against 1..7.  When the dates parse
    (to weekdays 0..6, as [datetime.weekday()] gives them) and [weekday]
    converts to an integer outside 1..7, [count_weekday_dates] does not
    fail: it writes [0]. *)
Theorem count_weekday_dates_out_of_range
        (E : Externals) (filename targetfile text : string) (weekday : json)
        (weekdays : list Z) (k : Z) (w : World) :
  files w !! filename = Some text ->
  Forall2 (fun line wd => parse_weekday E line = inr wd) (file_lines text) weekdays ->
  Forall (fun wd => 0 <= wd <= 6) weekdays ->
  py_int weekday = inr k -> k < 1 \/ 7 < k ->
  count_weekday_dates E (JStr filename) (JStr targetfile) weekday w
  = (inr RetNone, mkWorld (<[targetfile := "0"]> (files w)) (calls w)).
Proof.
  intros Hf Hp Hr Hk Hout. unfold count_weekday_dates, bind.
  rewrite (read_file_found _ _ _ Hf). unfold lift.
  rewrite (count_matching_filter E _ weekdays weekday k Hp Hk).
  replace (List.filter (fun wd => wd =? k - 1) weekdays) with (@nil Z);
    [reflexivity|].
  clear Hp. induction Hr as [|wd rest Hwd _ IH]; [reflexivity|].
  cbn [List.filter]. destruct (Z.eqb_spec wd (k - 1)); [lia|exact IH].
Qed.

Lemma count_weekday_dates_out_of_range_witness :
  let dates := String.concat Reference.newline ["2026-11-04"; "2026-11-05"; ""] in
  count_weekday_dates Reference.externals (JStr "/data/dates.txt")
                      (JStr "/data/out.txt") (JInt 0)
                      (Reference.world [("/data/dates.txt", dates)])
  = (inr RetNone,
     mkWorld (<["/data/out.txt" := "0"]> (list_to_map [("/data/dates.txt", dates)])) []).
Proof.
  intros dates.
  apply (count_weekday_dates_out_of_range Reference.externals
           "/data/dates.txt" "/data/out.txt" dates (JInt 0) [2; 3] 0).
  - reflexivity.
  - repeat constructor.
  - repeat constructor; lia.
  - reflexivity.
  - lia.
Defined.

(** ** [sort_contacts]: order kept, errors *)

Section SortedInput.
Context {K : Type} (lt : K -> K -> result bool).

Lemma insert_keyed_last (x : K * json) (l : list (K * json)) :
  Forall (fun y => (never_smaller lt) y x) l -> insert_keyed lt x l = inr (l ++ [x])%list.
Proof.
  induction 1 as [|y r Hy _ IH]; [reflexivity|].
  simpl. unfold never_smaller in Hy. rewrite Hy. simpl. now rewrite IH.
Qed.

Lemma sorted_prefix_before (acc r : list (K * json)) (x : K * json) :
  StronglySorted (never_smaller lt) (acc ++ x :: r)%list ->
  Forall (fun y => (never_smaller lt) y x) acc.
Proof.
  induction acc as [|a acc IH]; intros H; [constructor|].
  simpl in H. inversion H as [|? ? Hs Hall]; subst.
  constructor; [|now apply IH].
  rewrite List.Forall_forall in Hall. apply Hall.
  apply in_or_app. right. now left.
Qed.

Lemma sort_keyed_sorted (l acc : list (K * json)) :
  StronglySorted (never_smaller lt) (acc ++ l)%list ->
  sort_keyed lt l acc = inr (acc ++ l)%list.
Proof.
  revert acc. induction l as [|x r IH]; intros acc H.
  - now rewrite app_nil_r.
  - simpl. rewrite (insert_keyed_last x acc (sorted_prefix_before acc r x H)).
    simpl. rewrite IH; rewrite <- app_assoc; [reflexivity|exact H].
Qed.

End SortedInput.

Lemma StronglySorted_unmap {A B : Type} (R : A -> A -> Prop) (R' : B -> B -> Prop)
      (P : A -> Prop) (f : A -> B) (l : list A) :
  (forall a b, P a -> P b -> R' (f a) (f b) -> R a b) ->
  Forall P l -> StronglySorted R' (map f l) -> StronglySorted R l.
Proof.
  intros HR. induction l as [|a r IH]; intros HP Hs; [constructor|].
  inversion HP as [|? ? Ha Hr]; subst.
  simpl in Hs. inversion Hs as [|? ? Hsr Hall]; subst.
  constructor; [now apply IH|].
  rewrite List.Forall_forall in Hall. rewrite List.Forall_forall in Hr.
  apply List.Forall_forall. intros b Hb.
  apply HR; auto. apply Hall. now apply in_map.
Qed.

Section SortContacts.
Context (E : Externals).

Lemma contacts_have_keys (contacts : list json) :
  Forall is_contact contacts ->
  Forall (fun c => exists k, contact_key c = inr k /\ string_keyed k) contacts.
Proof.
  intros Hc. eapply Forall_impl; [exact Hc|]. intros c [names Hn].
  exists (names_key names). split; [now apply contact_key_names|now exists names].
Qed.

Lemma contact_le_never_smaller (a b : (json * json) * json) :
  string_keyed (fst a) /\ contact_key (snd a) = inr (fst a) ->
  string_keyed (fst b) /\ contact_key (snd b) = inr (fst b) ->
  contact_le (snd a) (snd b) -> never_smaller tuple_lt a b.
Proof.
  intros [[x Hx] Ha] [[y Hy] Hb] [x' [y' [Hx' [Hy' Hle]]]].
  rewrite Hx in Ha. rewrite Hy in Hb.
  apply contact_key_inv in Ha, Hb.
  assert (x' = x) by congruence. assert (y' = y) by congruence. subst x' y'.
  unfold never_smaller. rewrite Hx, Hy, tuple_lt_names.
  apply names_le_cmp in Hle. now destruct (names_cmp y x).
Qed.

(** Sorted contacts come back in the order they had. *)
Lemma py_sorted_sorted_contacts (contacts : list json) :
  Forall is_contact contacts -> StronglySorted contact_le contacts ->
  py_sorted tuple_lt contact_key contacts = inr contacts.
Proof.
  intros Hc Hs.
  destruct (decorate_ok string_keyed contact_key contacts (contacts_have_keys _ Hc))
    as [d [Hd [Hm Hf]]].
  unfold py_sorted. rewrite Hd. simpl.
  rewrite (sort_keyed_sorted tuple_lt d []).
  - simpl. now rewrite Hm.
  - simpl. rewrite <- Hm in Hs.
    eapply StronglySorted_unmap; [|exact Hf|exact Hs].
    intros a b Ha Hb. now apply contact_le_never_smaller.
Qed.

(** The run of [sort_contacts] on a file of contacts. *)
Lemma sort_contacts_result (filename targetfile text : string)
      (contacts : list json) (w : World) :
  files w !! filename = Some text ->
  json_loads E text = inr (JArr contacts) ->
  Forall is_contact contacts ->
  exists sorted_contacts,
    sort_contacts E (JStr filename) (JStr targetfile) w
    = (inr RetNone,
       mkWorld (<[targetfile := json_dump4 E (JArr sorted_contacts)]> (files w))
               (calls w))
    /\ Permutation contacts sorted_contacts
    /\ Forall is_contact sorted_contacts
    /\ StronglySorted contact_le sorted_contacts.
Proof.
  intros Hf Hl Hc.
  destruct (py_sorted_ok tuple_lt tuple_ltb string_keyed
              tuple_lt_string_keyed tuple_ltb_asym tuple_ltb_trans
              contact_key contacts (contacts_have_keys _ Hc)) as [s [Hs [Hp [Hg Hss]]]].
  exists (map snd s). split; [|split; [exact Hp|split]].
  - unfold sort_contacts, bind.
    rewrite (read_file_found _ _ _ Hf). unfold lift. rewrite Hl. simpl.
    rewrite Hs. reflexivity.
  - now apply (Permutation_Forall Hp).
  - eapply StronglySorted_map; [|exact Hg|exact Hss].
    intros a b [[x Hx] Ha] [[y Hy] Hb] Hle. unfold key_le in Hle.
    rewrite Hx in Ha. rewrite Hy in Hb.
    exists x, y. split; [now apply contact_key_inv|].
    split; [now apply contact_key_inv|].
    apply names_le_cmp. rewrite Hx, Hy in Hle.
    intros Hlt. apply tuple_ltb_names in Hlt. congruence.
Qed.

Lemma contact_key_object (m : list (string * json)) :
  (exists k, contact_key (JObj m) = inr k)
  \/ (exists name, (name = "last_name" \/ name = "first_name")
                   /\ contact_key (JObj m) = inl (KeyError name)).
Proof.
  unfold contact_key, subscript, rbind.
  destruct (dict_get "last_name" m) as [ln|]; [|right; eauto].
  destruct (dict_get "first_name" m) as [fn|]; [left|right]; eauto.
Qed.

Lemma contact_key_missing (m : list (string * json)) :
  dict_get "last_name" m = None \/ dict_get "first_name" m = None ->
  exists name, (name = "last_name" \/ name = "first_name")
               /\ contact_key (JObj m) = inl (KeyError name).
Proof.
  intros Hmiss. unfold contact_key, subscript, rbind.
  destruct (dict_get "last_name" m) as [ln|]; [|eauto].
  destruct Hmiss as [Hm|Hm]; [discriminate|]. rewrite Hm. eauto.
Qed.

Lemma decorate_missing_name (contacts : list json) :
  Forall (fun c => exists m, c = JObj m) contacts ->
  Exists (fun c => exists m, c = JObj m
                             /\ (dict_get "last_name" m = None
                                 \/ dict_get "first_name" m = None)) contacts ->
  exists k, (k = "last_name" \/ k = "first_name")
            /\ decorate contact_key contacts = inl (KeyError k).
Proof.
  intros Hobj Hex. induction Hex as [c rest [m [-> Hmiss]]|c rest Hex IH].
  - cbn [decorate].
    destruct (contact_key_missing m Hmiss) as [name [Hn ->]]. eauto.
  - inversion Hobj as [|? ? [m ->] Hrest]; subst.
    destruct (IH Hrest) as [k [Hk Hd]].
    cbn [decorate].
    destruct (contact_key_object m) as [[k0 ->]|[name [Hn ->]]]; [|eauto].
    unfold rbind at 1. rewrite Hd. eauto.
Qed.

End SortContacts.

(** X14: contacts that are already in order are written back in the order
    they have; in particular contacts with the same two names are not
    swapped. *)
Theorem sort_contacts_keeps_sorted_order
        (E : Externals) (filename targetfile text : string)
        (contacts : list json) (w : World) :
  files w !! filename = Some text ->
  json_loads E text = inr (JArr contacts) ->
  Forall is_contact contacts ->
  StronglySorted contact_le contacts ->
  sort_contacts E (JStr filename) (JStr targetfile) w
  = (inr RetNone,
     mkWorld (<[targetfile := json_dump4 E (JArr contacts)]> (files w)) (calls w)).
Proof.
  intros Hf Hl Hc Hs. unfold sort_contacts, bind.
  rewrite (read_file_found _ _ _ Hf). unfold lift. rewrite Hl. simpl.
  now rewrite (py_sorted_sorted_contacts contacts Hc Hs).
Qed.

Lemma sort_contacts_keeps_sorted_order_witness :
  let text := Reference.json_text
                "[{'last_name': 'Hale', 'first_name': 'Al', 'id': 1}, {'last_name': 'Hale', 'first_name': 'Al', 'id': 2}]" in
  let contacts :=
    [JObj [("last_name", JStr "Hale"); ("first_name", JStr "Al"); ("id", JInt 1)];
     JObj [("last_name", JStr "Hale"); ("first_name", JStr "Al"); ("id", JInt 2)]] in
  sort_contacts Reference.externals (JStr "/data/contacts.json")
                (JStr "/data/contacts-sorted.json")
                (Reference.world [("/data/contacts.json", text)])
  = (inr RetNone,
     mkWorld (<["/data/contacts-sorted.json" := Reference.dump4 (JArr contacts)]>
                (list_to_map [("/data/contacts.json", text)])) []).
Proof.
  intros text contacts.
  apply (sort_contacts_keeps_sorted_order Reference.externals
           "/data/contacts.json" "/data/contacts-sorted.json" text contacts).
  - reflexivity.
  - vm_compute. reflexivity.
  - repeat constructor; eexists; reflexivity.
  - repeat constructor;
      exists ("Hale", "Al"), ("Hale", "Al"); repeat split; right; split; reflexivity.
Defined.

(** X15: [sort_contacts] is idempotent.  After a run on a file of
    contacts, a second run that reads the file just written and writes it
    again changes nothing, provided the JSON library reads back what it
    wrote. *)
Theorem sort_contacts_idempotent
        (E : Externals) (filename targetfile text : string)
        (contacts : list json) (w : World) :
  files w !! filename = Some text ->
  json_loads E text = inr (JArr contacts) ->
  Forall is_contact contacts ->
  (forall s, Permutation contacts s ->
             json_loads E (json_dump4 E (JArr s)) = inr (JArr s)) ->
  exists w1,
    sort_contacts E (JStr filename) (JStr targetfile) w = (inr RetNone, w1)
    /\ sort_contacts E (JStr targetfile) (JStr targetfile) w1 = (inr RetNone, w1).
Proof.
  intros Hf Hl Hc Hround.
  destruct (sort_contacts_result E filename targetfile text contacts w Hf Hl Hc)
    as [s [Hrun [Hp [Hcs Hss]]]].
  eexists. split; [exact Hrun|].
  unfold sort_contacts, bind.
  rewrite (read_file_found targetfile (json_dump4 E (JArr s)))
    by (simpl; apply lookup_insert_eq).
  unfold lift. rewrite (Hround s Hp). simpl.
  rewrite (py_sorted_sorted_contacts s Hcs Hss).
  unfold write_file, bind, lift, ret, set_files. simpl.
  now rewrite insert_insert_eq.
Qed.

Lemma sort_contacts_idempotent_witness :
  let text := Reference.json_text
                "[{'last_name': 'Moss', 'first_name': 'Ro'}, {'last_name': 'Hale', 'first_name': 'Al'}]" in
  exists w1,
    sort_contacts Reference.externals (JStr "/data/contacts.json")
                  (JStr "/data/contacts-sorted.json")
                  (Reference.world [("/data/contacts.json", text)])
    = (inr RetNone, w1)
    /\ sort_contacts Reference.externals (JStr "/data/contacts-sorted.json")
                     (JStr "/data/contacts-sorted.json") w1
       = (inr RetNone, w1).
Proof.
  intros text.
  apply (sort_contacts_idempotent Reference.externals
           "/data/contacts.json" "/data/contacts-sorted.json" text
           [JObj [("last_name", JStr "Moss"); ("first_name", JStr "Ro")];
            JObj [("last_name", JStr "Hale"); ("first_name", JStr "Al")]]).
  - reflexivity.
  - vm_compute. reflexivity.
  - repeat constructor; eexists; reflexivity.
  - intros s Hs. apply Permutation_length_2_inv in Hs as [->| ->];
      vm_compute; reflexivity.
Defined.

(** X16: when the array holds objects and one of them lacks [last_name] or
    [first_name], [sort_contacts] raises [KeyError] for that name and the
    target file is neither created nor changed. *)
Theorem sort_contacts_missing_name
        (E : Externals) (filename : string) (targetfile : json) (text : string)
        (contacts : list json) (w : World) :
  files w !! filename = Some text ->
  json_loads E text = inr (JArr contacts) ->
  Forall (fun c => exists m, c = JObj m) contacts ->
  Exists (fun c => exists m, c = JObj m
                             /\ (dict_get "last_name" m = None
                                 \/ dict_get "first_name" m = None)) contacts ->
  exists name,
    (name = "last_name" \/ name = "first_name")
    /\ sort_contacts E (JStr filename) targetfile w = (inl (KeyError name), w).
Proof.
  intros Hf Hl Hobj Hex.
  destruct (decorate_missing_name contacts Hobj Hex) as [name [Hn Hd]].
  exists name. split; [exact Hn|].
  unfold sort_contacts, bind.
  rewrite (read_file_found _ _ _ Hf). unfold lift. rewrite Hl. simpl.
  unfold py_sorted. now rewrite Hd.
Qed.

Lemma sort_contacts_missing_name_witness :
  let text := Reference.json_text
                "[{'last_name': 'Moss', 'first_name': 'Ro'}, {'last_name': 'Hale'}]" in
  exists name,
    (name = "last_name" \/ name = "first_name")
    /\ sort_contacts Reference.externals (JStr "/data/contacts.json")
                     (JStr "/data/contacts-sorted.json")
                     (Reference.world [("/data/contacts.json", text)])
       = (inl (KeyError name), Reference.world [("/data/contacts.json", text)]).
Proof.
  intros text.
  apply (sort_contacts_missing_name Reference.externals "/data/contacts.json"
           (JStr "/data/contacts-sorted.json") text
           [JObj [("last_name", JStr "Moss"); ("first_name", JStr "Ro")];
            JObj [("last_name", JStr "Hale")]]).
  - reflexivity.
  - vm_compute. reflexivity.
  - repeat constructor; eexists; reflexivity.
  - apply Exists_cons_tl. apply Exists_cons_hd. eexists. split; [reflexivity|].
    right. reflexivity.
Defined.

(** X17: the input must decode to an array.  For [null], a boolean or a
    number, and for an object with at least one key (whose keys [sorted]
    would iterate), [sort_contacts] raises [TypeError] and writes
    nothing. *)
Theorem sort_contacts_needs_array
        (E : Externals) (filename : string) (targetfile : json) (text : string)
        (v : json) (w : World) :
  files w !! filename = Some text ->
  json_loads E text = inr v ->
  v = JNull \/ (exists b, v = JBool b) \/ (exists n, v = JInt n)
  \/ (exists k x m, v = JObj ((k, x) :: m)) ->
  exists msg,
    sort_contacts E (JStr filename) targetfile w = (inl (TypeError msg), w).
Proof.
  intros Hf Hl Hv. unfold sort_contacts, bind.
  rewrite (read_file_found _ _ _ Hf). unfold lift. rewrite Hl.
  destruct Hv as [->|[[b ->]|[[n ->]|[k [x [m ->]]]]]]; simpl; eauto.
Qed.

Lemma sort_contacts_needs_array_witness :
  let text := Reference.json_text "{'contacts': []}" in
  exists msg,
    sort_contacts Reference.externals (JStr "/data/contacts.json")
                  (JStr "/data/contacts-sorted.json")
                  (Reference.world [("/data/contacts.json", text)])
    = (inl (TypeError msg), Reference.world [("/data/contacts.json", text)]).
Proof.
  intros text.
  apply (sort_contacts_needs_array Reference.externals "/data/contacts.json"
           (JStr "/data/contacts-sorted.json") text
           (JObj [("contacts", JArr [])])).
  - reflexivity.
  - vm_compute. reflexivity.
  - do 3 right. eauto.
Defined.

(** ** [extract_email_sender]: what is written *)

Lemma string_app_cons (x : ascii) (a b : string) :
  String x a ++ b = String x (a ++ b).
Proof. reflexivity. Qed.

Lemma string_app_nil (b : string) : EmptyString ++ b = b.
Proof. reflexivity. Qed.

Lemma string_app_assoc (a b c : string) : (a ++ b) ++ c = a ++ (b ++ c).
Proof.
  induction a as [|x a IH]; [reflexivity|].
  rewrite !string_app_cons. now rewrite IH.
Qed.

Lemma contains_remove_same (c : ascii) (s : string) :
  contains_char c (PyStr.remove_char c s) = false.
Proof.
  induction s as [|d s IH]; simpl; [reflexivity|].
  destruct (Ascii.eqb d c) eqn:Hd; [exact IH|]. simpl. now rewrite Hd.
Qed.

Lemma contains_remove_other (c d : ascii) (s : string) :
  contains_char c s = false -> contains_char c (PyStr.remove_char d s) = false.
Proof.
  induction s as [|x s IH]; simpl; [reflexivity|].
  intros H. apply orb_false_iff in H as [Hx Hs].
  destruct (Ascii.eqb x d); [now apply IH|]. simpl. rewrite Hx. now apply IH.
Qed.

Lemma remove_absent (c : ascii) (s : string) :
  contains_char c s = false -> PyStr.remove_char c s = s.
Proof.
  induction s as [|x s IH]; simpl; [reflexivity|].
  intros H. apply orb_false_iff in H as [Hx Hs]. rewrite Hx. now rewrite IH.
Qed.

Lemma remove_char_app (c : ascii) (a b : string) :
  PyStr.remove_char c (a ++ b) = PyStr.remove_char c a ++ PyStr.remove_char c b.
Proof.
  induction a as [|x a IH]; [reflexivity|].
  rewrite string_app_cons. simpl.
  destruct (Ascii.eqb x c); [exact IH|]. rewrite string_app_cons. now rewrite IH.
Qed.

Lemma find_sender_no_brackets (email_content : list string) (sender_email : string) :
  contains_char "<" sender_email = false ->
  contains_char ">" sender_email = false ->
  contains_char "<" (find_sender email_content sender_email) = false
  /\ contains_char ">" (find_sender email_content sender_email) = false.
Proof.
  intros Hl Hg. induction email_content as [|line rest IH]; [now split|].
  cbn [find_sender].
  destruct (String.eqb "From" (PyStr.take 4 line)); [|exact IH].
  split.
  - apply contains_remove_other, contains_remove_same.
  - apply contains_remove_same.
Qed.

(** X18: whatever the input file holds, the sender [extract_email_sender]
    writes contains neither [<] nor [>]. *)
Theorem extract_email_sender_no_brackets
        (filename output_file text : string) (w : World) :
  files w !! filename = Some text ->
  exists sender,
    extract_email_sender (JStr filename) (JStr output_file) w
    = (inr RetNone, mkWorld (<[output_file := sender]> (files w)) (calls w))
    /\ contains_char "<" sender = false
    /\ contains_char ">" sender = false.
Proof.
  intros Hf. eexists. split.
  - unfold extract_email_sender, bind.
    rewrite (read_file_found _ _ _ Hf). reflexivity.
  - now apply find_sender_no_brackets.
Qed.

Lemma extract_email_sender_no_brackets_witness :
  let text := String.concat Reference.newline
                ["Subject: hi"; "From: <<Ada>> <<ada@example.org>>"; ""] in
  exists sender,
    extract_email_sender (JStr "/data/email.txt") (JStr "/data/email-sender.txt")
                         (Reference.world [("/data/email.txt", text)])
    = (inr RetNone,
       mkWorld (<["/data/email-sender.txt" := sender]>
                  (files (Reference.world [("/data/email.txt", text)]))) [])
    /\ contains_char "<" sender = false
    /\ contains_char ">" sender = false.
Proof.
  intros text.
  apply (extract_email_sender_no_brackets "/data/email.txt" "/data/email-sender.txt" text).
  reflexivity.
Defined.

Lemma lstrip_nonspace (c : ascii) (s : string) :
  PyStr.is_space c = false -> PyStr.lstrip (String c s) = String c s.
Proof. intros H. simpl. now rewrite H. Qed.

Lemma rstrip_all_space (t : string) :
  all_space t = true -> PyStr.rstrip t = EmptyString.
Proof.
  induction t as [|c t IH]; simpl; [reflexivity|].
  intros H. apply andb_true_iff in H as [Hc Ht]. now rewrite (IH Ht), Hc.
Qed.

Lemma rstrip_app_space (s t : string) :
  all_space t = true -> PyStr.rstrip (s ++ t) = PyStr.rstrip s.
Proof.
  intros Ht. induction s as [|c s IH].
  - now apply rstrip_all_space.
  - rewrite string_app_cons. simpl. now rewrite IH.
Qed.

Lemma rstrip_snoc (s : string) (c : ascii) :
  PyStr.is_space c = false ->
  PyStr.rstrip (s ++ String c EmptyString) = s ++ String c EmptyString.
Proof.
  intros Hc. induction s as [|a s IH].
  - simpl. now rewrite Hc.
  - rewrite string_app_cons. simpl. rewrite IH. now destruct s.
Qed.

Lemma split_nosep (sep : ascii) (b : string) :
  contains_char sep b = false -> PyStr.split sep b = [b].
Proof.
  induction b as [|c b IH]; simpl; [reflexivity|].
  intros H. apply orb_false_iff in H as [Hc Hb]. rewrite Hc.
  now rewrite (IH Hb).
Qed.

Lemma split_app_sep (sep : ascii) (a b : string) :
  contains_char sep b = false ->
  exists w ws, PyStr.split sep (a ++ String sep b) = (w :: ws ++ [b])%list.
Proof.
  intros Hb. induction a as [|c a IH].
  - rewrite string_app_nil. simpl.
    rewrite Ascii.eqb_refl, (split_nosep sep b Hb). now exists EmptyString, [].
  - rewrite string_app_cons. simpl. destruct IH as [w [ws Hws]]. rewrite Hws.
    destruct (Ascii.eqb c sep).
    + now exists EmptyString, (w :: ws).
    + now exists (String c w), ws.
Qed.

Lemma string_app_nil_r (a : string) : a ++ EmptyString = a.
Proof.
  induction a as [|x a IH]; [reflexivity|].
  rewrite string_app_cons. now rewrite IH.
Qed.

Lemma contains_char_app (c : ascii) (a b : string) :
  contains_char c (a ++ b) = contains_char c a || contains_char c b.
Proof.
  induction a as [|x a IH]; [reflexivity|].
  rewrite string_app_cons. simpl. rewrite IH. now rewrite orb_assoc.
Qed.

Lemma startswith_app (s pre rest : string) :
  PyStr.startswith s pre = true -> PyStr.startswith (s ++ rest) pre = true.
Proof.
  rewrite !startswith_spec. intros [r ->]. exists (r ++ rest).
  apply string_app_assoc.
Qed.

(** The sender read from a line that ends in [ <addr>]. *)
Lemma header_sender (head addr tail : string) :
  PyStr.startswith head "From" = true ->
  contains_char " " addr = false ->
  contains_char "<" addr = false ->
  contains_char ">" addr = false ->
  all_space tail = true ->
  PyStr.remove_char ">"
    (PyStr.remove_char "<"
       (List.last (PyStr.split " " (PyStr.strip (head ++ " <" ++ addr ++ ">" ++ tail)))
                  EmptyString))
  = addr.
Proof.
  intros Hhead Hsp Hlt Hgt Htail.
  assert (Hstrip : PyStr.strip (head ++ " <" ++ addr ++ ">" ++ tail)
                   = head ++ String " " ("<" ++ addr ++ ">")).
  { unfold PyStr.strip.
    apply startswith_spec in Hhead as [r ->].
    change (("From" ++ r) ++ " <" ++ addr ++ ">" ++ tail)
      with (String "F" ("rom" ++ r ++ " <" ++ addr ++ ">" ++ tail)) at 1.
    rewrite lstrip_nonspace by reflexivity.
    change (String "F" ("rom" ++ r ++ " <" ++ addr ++ ">" ++ tail))
      with (("From" ++ r) ++ " <" ++ addr ++ ">" ++ tail).
    replace (("From" ++ r) ++ " <" ++ addr ++ ">" ++ tail)
      with (((("From" ++ r) ++ " <" ++ addr) ++ String ">" EmptyString) ++ tail)
      by (rewrite !string_app_assoc; reflexivity).
    rewrite (rstrip_app_space _ tail Htail).
    rewrite rstrip_snoc by reflexivity.
    rewrite !string_app_assoc. reflexivity. }
  rewrite Hstrip.
  assert (Hb : contains_char " " ("<" ++ addr ++ ">") = false).
  { change ("<" ++ addr ++ ">") with (String "<" (addr ++ ">")).
    simpl. now rewrite contains_char_app, Hsp. }
  destruct (split_app_sep " " head ("<" ++ addr ++ ">") Hb) as [w0 [ws Hws]].
  rewrite Hws. rewrite app_comm_cons, last_last.
  change ("<" ++ addr ++ ">") with (String "<" (addr ++ ">")). simpl.
  rewrite remove_char_app, (remove_absent "<" addr Hlt). simpl.
  rewrite remove_char_app, (remove_absent ">" addr Hgt). simpl.
  apply string_app_nil_r.
Qed.

Lemma find_sender_first_match (pre rest : list string) (line sender_email : string) :
  Forall (fun l => PyStr.startswith l "From" = false) pre ->
  PyStr.startswith line "From" = true ->
  find_sender (pre ++ line :: rest) sender_email
  = PyStr.remove_char ">"
      (PyStr.remove_char "<"
         (List.last (PyStr.split " " (PyStr.strip line)) EmptyString)).
Proof.
  intros Hpre Hline. induction Hpre as [|l pre Hl _ IH].
  - cbn [app find_sender]. now rewrite take4_From, Hline.
  - cbn [app find_sender]. now rewrite take4_From, Hl.
Qed.

(** X19: the first line that begins with [From] decides, and for a header
    of the usual shape, [From ... <addr>] followed by the line end, the
    address between the brackets is what is written (given an address
    free of spaces and brackets). *)
Theorem extract_email_sender_reads_header
        (filename output_file text head addr tail : string)
        (pre rest : list string) (w : World) :
  files w !! filename = Some text ->
  file_lines text
  = (pre ++ (head ++ " <" ++ addr ++ ">" ++ tail)%string :: rest)%list ->
  Forall (fun line => PyStr.startswith line "From" = false) pre ->
  PyStr.startswith head "From" = true ->
  contains_char " " addr = false ->
  contains_char "<" addr = false ->
  contains_char ">" addr = false ->
  all_space tail = true ->
  extract_email_sender (JStr filename) (JStr output_file) w
  = (inr RetNone, mkWorld (<[output_file := addr]> (files w)) (calls w)).
Proof.
  intros Hf Hlines Hpre Hhead Hsp Hlt Hgt Htail.
  unfold extract_email_sender, bind.
  rewrite (read_file_found _ _ _ Hf). rewrite Hlines.
  rewrite (find_sender_first_match pre rest _ _ Hpre)
    by (now apply startswith_app).
  now rewrite (header_sender head addr tail Hhead Hsp Hlt Hgt Htail).
Qed.

Lemma extract_email_sender_reads_header_witness :
  let text := String.concat Reference.newline
                ["Delivered-To: bo@example.org";
                 "From: Ada Byron <ada@example.org>";
                 "From: someone <else@example.org>"; ""] in
  extract_email_sender (JStr "/data/email.txt") (JStr "/data/email-sender.txt")
                       (Reference.world [("/data/email.txt", text)])
  = (inr RetNone,
     mkWorld (<["/data/email-sender.txt" := "ada@example.org"]>
                (files (Reference.world [("/data/email.txt", text)]))) []).
Proof.
  intros text.
  apply (extract_email_sender_reads_header
           "/data/email.txt" "/data/email-sender.txt" text
           "From: Ada Byron" "ada@example.org" Reference.newline
           ["Delivered-To: bo@example.org" ++ Reference.newline]
           ["From: someone <else@example.org>" ++ Reference.newline]).
  - reflexivity.
  - reflexivity.
  - repeat constructor.
  - reflexivity.
  - reflexivity.
  - reflexivity.
  - reflexivity.
  - reflexivity.
Defined.

(** ** [find_similar_comments] *)

Section Similar.
Context (S : Services).

Lemma embed_all_comments (comments : list string)
      (items : list (string * embedding S)) :
  embed_all S comments = inr items -> map fst items = comments.
Proof.
  revert items. induction comments as [|c rest IH]; intros items H; simpl in H.
  - now inversion H.
  - destruct (get_embedding S c) as [e|emb]; [discriminate|]. simpl in H.
    destruct (embed_all S rest) as [e|r]; [discriminate|]. simpl in H.
    inversion H. simpl. now rewrite (IH r).
Qed.

Lemma inner_loop_pair (ci : string) (ei : embedding S)
      (later : list (string * embedding S)) (st st' : closest S) :
  inner_loop S ci ei later st = inr st' ->
  snd st' = snd st
  \/ exists pre cj ej post,
       later = (pre ++ (cj, ej) :: post)%list /\ snd st' = Some (ci, cj).
Proof.
  revert st. induction later as [|[cj ej] later IH]; intros st H; simpl in H.
  - inversion H. now left.
  - destruct (cosine S ei ej) as [e|d]; [discriminate|]. simpl in H.
    destruct (IH _ H) as [Hsame|[pre [c [e [post [-> Hst]]]]]].
    + destruct (distance_lt S d (fst st)).
      * right. exists [], cj, ej, later. now split.
      * now left.
    + right. exists ((cj, ej) :: pre), c, e, post. now split.
Qed.

Lemma outer_loop_pair (items : list (string * embedding S)) (st st' : closest S) :
  outer_loop S items st = inr st' ->
  snd st' = snd st
  \/ exists pre a ea mid b eb post,
       items = (pre ++ (a, ea) :: mid ++ (b, eb) :: post)%list
       /\ snd st' = Some (a, b).
Proof.
  revert st. induction items as [|[ci ei] later IH]; intros st H; simpl in H.
  - inversion H. now left.
  - destruct (inner_loop S ci ei later st) as [e|st1] eqn:Hin; [discriminate|].
    simpl in H.
    destruct (IH _ H) as [Hsame|[pre [a [ea [mid [b [eb [post [-> Hst]]]]]]]]].
    + destruct (inner_loop_pair ci ei later st st1 Hin)
        as [Hsame'|[pre [cj [ej [post [-> Hst]]]]]].
      * left. congruence.
      * right. exists [], ci, ei, pre, cj, ej, post. split; [reflexivity|congruence].
    + right. exists ((ci, ei) :: pre), a, ea, mid, b, eb, post. now split.
Qed.

Lemma outer_loop_short (items : list (string * embedding S)) :
  (List.length items <= 1)%nat ->
  outer_loop S items (infinity S, None) = inr (infinity S, None).
Proof.
  destruct items as [|[c e] [|x r]]; simpl; intros H; try reflexivity. lia.
Qed.

End Similar.

(** X20: with fewer than two comments in the input, [find_similar_comments]
    finds no pair: it opens the output file, which leaves it empty, and
    then raises [TypeError] on [None + '\n']. *)
Theorem find_similar_comments_needs_two
        (S : Services) (filename output_filename text : string)
        (items : list (string * embedding S)) (w : World) :
  files w !! filename = Some text ->
  (List.length (file_lines text) <= 1)%nat ->
  embed_all S (map PyStr.strip (file_lines text)) = inr items ->
  find_similar_comments S (JStr filename) (JStr output_filename) w
  = (inl (TypeError "unsupported operand type(s) for +: 'NoneType' and 'str'"),
     mkWorld (<[output_filename := EmptyString]> (files w)) (calls w)).
Proof.
  intros Hf Hlen Hemb. unfold find_similar_comments, bind.
  rewrite (read_file_found _ _ _ Hf). unfold lift at 1. rewrite Hemb.
  unfold lift at 1. rewrite outer_loop_short; [reflexivity|].
  rewrite <- (length_map fst), (embed_all_comments S _ _ Hemb), length_map.
  exact Hlen.
Qed.

Lemma find_similar_comments_needs_two_witness :
  find_similar_comments ReferenceServices.services (JStr "/data/comments.txt")
                        (JStr "/data/comments-similar.txt")
                        (Reference.world [("/data/comments.txt", "only one");
                                          ("/data/comments-similar.txt", "old")])
  = (inl (TypeError "unsupported operand type(s) for +: 'NoneType' and 'str'"),
     mkWorld (<["/data/comments-similar.txt" := EmptyString]>
                (list_to_map [("/data/comments.txt", "only one");
                              ("/data/comments-similar.txt", "old")])) []).
Proof.
  apply (find_similar_comments_needs_two ReferenceServices.services
           "/data/comments.txt" "/data/comments-similar.txt" "only one"
           [("only one", "only one")]).
  - reflexivity.
  - simpl. lia.
  - reflexivity.
Defined.

(** X21: when [find_similar_comments] succeeds, the output file holds
    exactly two lines: two of the stripped comments of the input, the one
    that comes first in the input first. *)
Theorem find_similar_comments_writes_pair
        (S : Services) (filename output_filename text : string) (w w' : World) :
  files w !! filename = Some text ->
  find_similar_comments S (JStr filename) (JStr output_filename) w
  = (inr RetNone, w') ->
  exists pre a mid b post,
    map PyStr.strip (file_lines text) = (pre ++ a :: mid ++ b :: post)%list
    /\ w' = mkWorld (<[output_filename :=
                         a ++ String "010" EmptyString ++ b ++ String "010" EmptyString]>
                       (files w))
                    (calls w).
Proof.
  intros Hf H. unfold find_similar_comments, bind in H.
  rewrite (read_file_found _ _ _ Hf) in H. unfold lift at 1 in H.
  destruct (embed_all S (map PyStr.strip (file_lines text))) as [e|items] eqn:Hemb;
    [discriminate|].
  unfold lift at 1 in H.
  destruct (outer_loop S items (infinity S, None)) as [e|st] eqn:Hloop;
    [discriminate|].
  destruct (outer_loop_pair S items _ st Hloop)
    as [Hnone|[pre [a [ea [mid [b [eb [post [Hitems Hst]]]]]]]]].
  - simpl in Hnone. unfold write_pair, bind, lift in H. simpl in H.
    rewrite Hnone in H. discriminate.
  - exists (map fst pre), a, (map fst mid), b, (map fst post). split.
    + rewrite <- (embed_all_comments S _ _ Hemb), Hitems.
      rewrite map_app. simpl. rewrite map_app. reflexivity.
    + unfold write_pair, bind, lift in H. simpl in H. rewrite Hst in H.
      unfold write_file, bind, lift, ret in H. simpl in H.
      inversion H. reflexivity.
Qed.

Lemma find_similar_comments_writes_pair_witness :
  let text := String.concat Reference.newline ["nice"; "truly awful"; "good"; ""] in
  let w := Reference.world [("/data/comments.txt", text)] in
  exists pre a mid b post,
    map PyStr.strip (file_lines text) = (pre ++ a :: mid ++ b :: post)%list
    /\ snd (find_similar_comments ReferenceServices.services
              (JStr "/data/comments.txt") (JStr "/data/comments-similar.txt") w)
       = mkWorld (<["/data/comments-similar.txt" :=
                      a ++ String "010" EmptyString ++ b ++ String "010" EmptyString]>
                    (files w))
                 (calls w).
Proof.
  intros text w.
  apply (find_similar_comments_writes_pair ReferenceServices.services
           "/data/comments.txt" "/data/comments-similar.txt" text w).
  - reflexivity.
  - vm_compute. reflexivity.
Defined.

(** ** [process_credit_card] and [calculate_ticket_sales] *)

(** X22: the card number [process_credit_card] writes is the model's
    answer with every space removed, so it contains no space; the image is
    what is read, [filename] what is written, and neither path goes
    through the guard. *)
Theorem process_credit_card_strips_spaces
        (S : Services) (filename image_path image content : string) (w : World) :
  files w !! image_path = Some image ->
  chat_content S image = inr content ->
  exists card_number,
    process_credit_card S (JStr filename) (JStr image_path) w
    = (inr RetNone, mkWorld (<[filename := card_number]> (files w)) (calls w))
    /\ card_number = PyStr.remove_char " " content
    /\ contains_char " " card_number = false.
Proof.
  intros Hf Hc. eexists. split; [|split; [reflexivity|]].
  - unfold process_credit_card, bind.
    rewrite (read_file_found _ _ _ Hf). unfold lift. rewrite Hc. reflexivity.
  - apply contains_remove_same.
Qed.

Lemma process_credit_card_strips_spaces_witness :
  exists card_number,
    process_credit_card ReferenceServices.services (JStr "/tmp/card.txt")
                        (JStr "/data/credit_card.png")
                        (Reference.world [("/data/credit_card.png", "PNG")])
    = (inr RetNone,
       mkWorld (<["/tmp/card.txt" := card_number]>
                  (files (Reference.world [("/data/credit_card.png", "PNG")]))) [])
    /\ card_number = PyStr.remove_char " " "4026 3992 3303 2816"
    /\ contains_char " " card_number = false.
Proof.
  apply (process_credit_card_strips_spaces ReferenceServices.services
           "/tmp/card.txt" "/data/credit_card.png" "PNG" "4026 3992 3303 2816").
  - reflexivity.
  - reflexivity.
Defined.

(** X23: when the query of [calculate_ticket_sales] yields a row whose
    first column is NULL, zero or otherwise false (no matching ticket, for
    the default sum), the output file receives [0]; when it yields no row
    at all, [fetchone()[0]] raises [TypeError] and the output file is not
    written. *)
Theorem calculate_ticket_sales_edge_rows
        (S : Services) (filename query : json) (output_filename : string)
        (fs : gmap string string) (w : World) :
  (forall total_sales,
      sqlite_fetchone S filename query (files w) = (inr (Some total_sales), fs) ->
      sql_truthy total_sales = false ->
      calculate_ticket_sales S filename (JStr output_filename) query w
      = (inr RetNone, mkWorld (<[output_filename := "0"]> fs) (calls w)))
  /\ (sqlite_fetchone S filename query (files w) = (inr None, fs) ->
      calculate_ticket_sales S filename (JStr output_filename) query w
      = (inl (TypeError "'NoneType' object is not subscriptable"),
         mkWorld fs (calls w))).
Proof.
  split.
  - intros total_sales Hq Ht. unfold calculate_ticket_sales, bind. rewrite Hq.
    simpl. now rewrite Ht.
  - intros Hq. unfold calculate_ticket_sales, bind. now rewrite Hq.
Qed.

Lemma calculate_ticket_sales_edge_rows_witness :
  let w := Reference.world [("/data/ticket-sales.db", "")] in
  calculate_ticket_sales ReferenceServices.services (JStr "/data/ticket-sales.db")
                         (JStr "/data/ticket-sales-gold.txt")
                         (JStr "SELECT SUM(units * price) FROM tickets WHERE type = 'Gold'")
                         w
  = (inr RetNone,
     mkWorld (<["/data/ticket-sales-gold.txt" := "0"]> (files w)) [])
  /\ calculate_ticket_sales ReferenceServices.services (JStr "/data/ticket-sales.db")
                            (JStr "/data/ticket-sales-gold.txt")
                            (JStr "DELETE FROM tickets") w
     = (inl (TypeError "'NoneType' object is not subscriptable"), mkWorld (files w) []).
Proof.
  intros w. split.
  - apply (calculate_ticket_sales_edge_rows ReferenceServices.services
             (JStr "/data/ticket-sales.db")
             (JStr "SELECT SUM(units * price) FROM tickets WHERE type = 'Gold'")
             "/data/ticket-sales-gold.txt" (files w) w) with (total_sales := SqlNull);
      reflexivity.
  - apply (calculate_ticket_sales_edge_rows ReferenceServices.services
             (JStr "/data/ticket-sales.db") (JStr "DELETE FROM tickets")
             "/data/ticket-sales-gold.txt" (files w) w).
    reflexivity.
Defined.

(** ** [create_docs_index] *)

Section DocsIndexFacts.
Context (E : Externals) (D : Directories).

Lemma dict_set_values (P : json -> Prop) (k : string) (v : json)
      (d : list (string * json)) :
  P v -> Forall (fun kv => P (snd kv)) d ->
  Forall (fun kv => P (snd kv)) (Reference.dict_set k v d).
Proof.
  intros Hv Hd. induction d as [|[k0 v0] d IH]; simpl.
  - constructor; [exact Hv|constructor].
  - inversion Hd as [|? ? H0 Hd']; subst.
    destruct (String.eqb k k0); constructor; auto.
Qed.

Lemma index_files_inv (P : json -> Prop) (root : string) (names : list string)
      (docs_dir : json) (w : World) :
  (forall file text title,
      In file names -> PyStr.endswith file ".md" = true ->
      files w !! path_join root file = Some text ->
      first_heading (file_lines text) = Some title -> P (JStr title)) ->
  forall idx idx' w',
    Forall (fun kv => P (snd kv)) idx ->
    index_files D root names docs_dir idx w = (inr idx', w') ->
    w' = w /\ Forall (fun kv => P (snd kv)) idx'.
Proof.
  induction names as [|file rest IH]; intros HP idx idx' w' Hidx H.
  - cbn in H. unfold ret in H. inversion H; subst. now split.
  - assert (HP' : forall f text title,
               In f rest -> PyStr.endswith f ".md" = true ->
               files w !! path_join root f = Some text ->
               first_heading (file_lines text) = Some title -> P (JStr title))
      by (intros f text title Hf; apply HP; now right).
    cbn [index_files] in H.
    destruct (PyStr.endswith file ".md") eqn:Hmd; [|now apply (IH HP' idx)].
    unfold bind at 1 in H.
    destruct (files w !! path_join root file) as [text|] eqn:Hf.
    + rewrite (read_file_found _ _ _ Hf) in H.
      destruct (first_heading (file_lines text)) as [title|] eqn:Hh;
        [|now apply (IH HP' idx)].
      unfold bind at 1, lift at 1 in H.
      destruct (relpath D (path_join root file) docs_dir) as [e|rel];
        [discriminate|].
      apply (IH HP' _ _ _ (dict_set_values P _ (JStr title) idx
                             (HP file text title (or_introl eq_refl) Hmd Hf Hh) Hidx) H).
    + rewrite (read_file_missing _ _ Hf) in H. discriminate.
Qed.

Lemma index_dirs_inv (dirs all : list (string * list string)) (docs_dir : json)
      (w : World) :
  (forall d, In d dirs -> In d all) ->
  forall idx idx' w',
    Forall (fun kv => listed_title all (files w) (snd kv)) idx ->
    index_dirs D dirs docs_dir idx w = (inr idx', w') ->
    w' = w /\ Forall (fun kv => listed_title all (files w) (snd kv)) idx'.
Proof.
  induction dirs as [|[root names] rest IH]; intros Hsub idx idx' w' Hidx H.
  - cbn in H. unfold ret in H. inversion H; subst. now split.
  - cbn [index_dirs] in H. unfold bind at 1 in H.
    destruct (index_files D root names docs_dir idx w) as [[e|idx1] w1] eqn:Hfiles;
      [discriminate|].
    destruct (index_files_inv (listed_title all (files w)) root names docs_dir w)
      with (idx := idx) (idx' := idx1) (w' := w1) as [-> Hidx1]; auto.
    { intros file text title Hin Hmd Hf Hh.
      exists root, names, file, text, title. repeat split; auto.
      apply Hsub. now left. }
    apply (IH (fun d Hd => Hsub d (or_intror Hd)) idx1 idx' w' Hidx1 H).
Qed.

Lemma index_files_no_markdown (root : string) (names : list string)
      (docs_dir : json) (idx : list (string * json)) (w : World) :
  Forall (fun file => PyStr.endswith file ".md" = false) names ->
  index_files D root names docs_dir idx w = (inr idx, w).
Proof.
  induction 1 as [|file rest Hf _ IH]; [reflexivity|].
  cbn [index_files]. now rewrite Hf.
Qed.

Lemma index_dirs_no_markdown (dirs : list (string * list string))
      (docs_dir : json) (idx : list (string * json)) (w : World) :
  Forall (fun d => Forall (fun file => PyStr.endswith file ".md" = false) (snd d)) dirs ->
  index_dirs D dirs docs_dir idx w = (inr idx, w).
Proof.
  induction 1 as [|[root names] rest Hd _ IH]; [reflexivity|].
  cbn [index_dirs]. unfold bind at 1.
  now rewrite (index_files_no_markdown root names docs_dir idx w Hd).
Qed.

End DocsIndexFacts.

(** X24: when [create_docs_index] succeeds, the file it writes is the
    [indent=4] rendering of an object whose every value is the title of a
    markdown file of the tree: the stripped text after [# ] of the first
    line of that file that begins so.  Files without such a line, and
    files whose name does not end in [.md], contribute nothing. *)
Theorem create_docs_index_titles
        (E : Externals) (D : Directories) (doc_dir_path : json)
        (output_file_path : string) (dirs : list (string * list string))
        (w w' : World) :
  os_walk D doc_dir_path (files w) = inr dirs ->
  create_docs_index E D doc_dir_path (JStr output_file_path) w = (inr RetNone, w') ->
  exists index_data,
    w' = mkWorld (<[output_file_path := json_dump4 E (JObj index_data)]> (files w))
                 (calls w)
    /\ Forall (fun kv => listed_title dirs (files w) (snd kv)) index_data.
Proof.
  intros Hwalk H. unfold create_docs_index in H.
  unfold bind at 1 in H. rewrite Hwalk in H.
  unfold bind at 1 in H.
  destruct (index_dirs D dirs doc_dir_path [] w) as [[e|idx] w1] eqn:Hdirs;
    [discriminate|].
  destruct (index_dirs_inv D dirs dirs doc_dir_path w (fun d Hd => Hd)
              [] idx w1 (List.Forall_nil _) Hdirs) as [-> Hidx].
  exists idx. split; [|exact Hidx].
  unfold bind, write_file, lift, ret in H. simpl in H. now inversion H.
Qed.

Lemma create_docs_index_titles_witness :
  let w := Reference.world
             [("/data/docs/intro.md",
               String.concat Reference.newline ["intro"; "#  Getting started "; "# Later"]);
              ("/data/docs/sub/deep.md", "no heading here")] in
  exists index_data,
    snd (create_docs_index Reference.externals ReferenceDirectories.directories
           (JStr "/data/docs") (JStr "/data/docs/index.json") w)
    = mkWorld (<["/data/docs/index.json" := Reference.dump4 (JObj index_data)]> (files w))
              (calls w)
    /\ Forall (fun kv => listed_title
                           [("/data/docs", ["intro.md"; "notes.txt"]);
                            ("/data/docs/sub", ["deep.md"])]
                           (files w) (snd kv)) index_data.
Proof.
  intros w.
  apply (create_docs_index_titles Reference.externals ReferenceDirectories.directories
           (JStr "/data/docs") "/data/docs/index.json").
  - reflexivity.
  - vm_compute. reflexivity.
Defined.

(** X25: when the tree holds no file whose name ends in [.md],
    [create_docs_index] opens no file and writes the empty object. *)
Theorem create_docs_index_no_markdown
        (E : Externals) (D : Directories) (doc_dir_path : json)
        (output_file_path : string) (dirs : list (string * list string)) (w : World) :
  os_walk D doc_dir_path (files w) = inr dirs ->
  Forall (fun d => Forall (fun file => PyStr.endswith file ".md" = false) (snd d)) dirs ->
  create_docs_index E D doc_dir_path (JStr output_file_path) w
  = (inr RetNone,
     mkWorld (<[output_file_path := json_dump4 E (JObj [])]> (files w)) (calls w)).
Proof.
  intros Hwalk Hno. unfold create_docs_index.
  unfold bind at 1. rewrite Hwalk.
  unfold bind at 1. rewrite (index_dirs_no_markdown D dirs doc_dir_path [] w Hno).
  reflexivity.
Qed.

Lemma create_docs_index_no_markdown_witness :
  create_docs_index Reference.externals ReferenceDirectories.empty_tree
                    (JStr "/data/docs") (JStr "/data/docs/index.json")
                    (Reference.world [])
  = (inr RetNone,
     mkWorld (<["/data/docs/index.json" := Reference.dump4 (JObj [])]>
                (files (Reference.world []))) []).
Proof.
  apply (create_docs_index_no_markdown Reference.externals
           ReferenceDirectories.empty_tree (JStr "/data/docs")
           "/data/docs/index.json" [("/data/docs", ["notes.txt"])]).
  - reflexivity.
  - repeat constructor.
Defined.
